(** * Conversation reconstruction engine of [app.py]

    A shallow embedding of the log-reconstruction functions of [src/app.py]
    ([extract_user_info], [extract_chat_messages],
    [extract_timestamps_from_data], [extract_conversation_from_data],
    [determine_sender], [is_real_conversation_message]) and the properties
    the specification states about them.

    Python values are modelled as the interpreter has them: a [str] is a
    sequence of Unicode code points, an [int] is unbounded, a [dict] that
    comes out of [json.loads] is its item list in insertion order, and an
    exception is a value of [exn] carried by [result].  What belongs to the
    interpreter rather than to the repository (the Unicode tables behind
    [str.lower], [str.isdigit], ..., [int(str)], [repr], [datetime]) is
    collected in the record [runtime]; every definition and theorem is given
    for an arbitrary runtime, and [CPython.rt] is the instance used to
    evaluate the worked examples.  The interpreter's recursion limit is not
    modelled: a traversal goes as deep as the value is. *)

From Stdlib Require Import List ZArith NArith Bool String Ascii Lia.
From Stdlib Require Import DecimalString.
From Stdlib Require Import Permutation Sorted SpecFloat.
Import ListNotations.

(* ================================================================== *)
(** ** Python values *)
(* ================================================================== *)

Module Py.

(** A [str]: the sequence of its code points. [len] is [length]. *)
Definition str := list N.

(** A literal whose characters are all below U+0100. *)
Definition lit (s : string) : str :=
  map N_of_ascii (list_ascii_of_string s).

Fixpoint eqb (s t : str) : bool :=
  match s, t with
  | [], [] => true
  | a :: s', b :: t' => N.eqb a b && eqb s' t'
  | _, _ => false
  end.

(** [s.startswith(p)] *)
Fixpoint startswith (p s : str) : bool :=
  match p, s with
  | [], _ => true
  | a :: p', b :: s' => N.eqb a b && startswith p' s'
  | _ :: _, [] => false
  end.

(** [s.endswith(p)] *)
Definition endswith (p s : str) : bool := startswith (rev p) (rev s).

(** [p in s] for two strings: [p] occurs as a contiguous run of [s]. *)
Fixpoint contains (p s : str) : bool :=
  startswith p s ||
  match s with
  | [] => false
  | _ :: s' => contains p s'
  end.

(** [s.count(c)] for a one-character [c]. *)
Definition count (c : N) (s : str) : nat :=
  List.length (filter (N.eqb c) s).

(** [x in xs] for a string [x] and a list or set of strings [xs]. *)
Definition mem (x : str) (xs : list str) : bool := existsb (eqb x) xs.

(** Decimal digits of a natural number, as [str(i)] prints an index. *)
Definition str_of_nat (n : nat) : str :=
  lit (NilEmpty.string_of_uint (Nat.to_uint n)).

(** The exceptions the modelled code can meet. *)
Inductive exn : Type :=
| ValueError | IndexError | KeyError | TypeError | OSError | OverflowError.

Definition exn_eqb (a b : exn) : bool :=
  match a, b with
  | ValueError, ValueError | IndexError, IndexError | KeyError, KeyError
  | TypeError, TypeError | OSError, OSError
  | OverflowError, OverflowError => true
  | _, _ => false
  end.

(** The outcome of running a piece of Python: a value or a raised
    exception. *)
Inductive result (A : Type) : Type :=
| Ok (a : A)
| Raise (e : exn).
Arguments Ok {A} a.
Arguments Raise {A} e.

Definition bind {A B} (c : result A) (k : A -> result B) : result B :=
  match c with
  | Ok a => k a
  | Raise e => Raise e
  end.

(** [try: c except (e1, e2, ...): h] *)
Definition try_except {A} (c : result A) (caught : list exn)
           (h : result A) : result A :=
  match c with
  | Ok a => Ok a
  | Raise e => if existsb (exn_eqb e) caught then h else Raise e
  end.

(** A [for] loop whose body may raise: [for i, x in enumerate(l, i0)]
    with the loop state [acc] threaded through the body [f]. *)
Definition for_each {A B : Type} (f : nat -> A -> B -> result B)
  : list A -> nat -> B -> result B :=
  fix loop (l : list A) (i : nat) (acc : B) : result B :=
    match l with
    | [] => Ok acc
    | x :: rest => bind (f i x acc) (loop rest (S i))
    end.

End Py.

Import Py.
Open Scope Z_scope.

Declare Scope py_scope.
Delimit Scope py_scope with py.
Notation "x <- c ;; k" := (bind c (fun x => k))
  (at level 61, c at next level, right associativity) : py_scope.
Notation "c ;;; k" := (bind c (fun _ => k))
  (at level 61, right associativity) : py_scope.
Open Scope py_scope.

(** ** JSON values, as [json.loads] delivers them *)

(** A [float] is an IEEE-754 double; [int] is unbounded. *)
Inductive number : Type :=
| NInt (z : Z)
| NFloat (f : spec_float).

(** A [dict] is the list of its items in insertion order (its keys are
    pairwise distinct strings); a [list] is a list. *)
#[local] Unset Elimination Schemes.
Inductive json : Type :=
| JNull
| JBool (b : bool)
| JNum (n : number)
| JStr (s : str)
| JArr (items : list json)
| JObj (items : list (str * json)).
#[local] Set Elimination Schemes.

(** Structural induction that reaches the elements of arrays and the
    values of objects. *)
Section JsonInd.
Variable P : json -> Prop.
Hypothesis Hnull : P JNull.
Hypothesis Hbool : forall b, P (JBool b).
Hypothesis Hnum : forall n, P (JNum n).
Hypothesis Hstr : forall s, P (JStr s).
Hypothesis Harr : forall l, Forall P l -> P (JArr l).
Hypothesis Hobj : forall kvs, Forall (fun kv => P (snd kv)) kvs -> P (JObj kvs).

Fixpoint json_tree_ind (v : json) : P v :=
    match v with
    | JNull => Hnull
    | JBool b => Hbool b
    | JNum n => Hnum n
    | JStr s => Hstr s
    | JArr l =>
        Harr l ((fix elems (l : list json) : Forall P l :=
                 match l with
                 | [] => Forall_nil P
                 | x :: l' => Forall_cons x (json_tree_ind x) (elems l')
                 end) l)
    | JObj kvs =>
        Hobj kvs ((fix vals (kvs : list (str * json))
                 : Forall (fun kv => P (snd kv)) kvs :=
                 match kvs with
                 | [] => Forall_nil _
                 | kv :: kvs' =>
                     Forall_cons kv (json_tree_ind (snd kv)) (vals kvs')
                 end) kvs)
    end.
End JsonInd.

(** [isinstance(v, list)] *)
Definition is_list (v : json) : bool :=
  match v with JArr _ => true | _ => false end.

(** [len(v)]: defined on [list], [dict] and [str]. *)
Definition py_len (v : json) : result Z :=
  match v with
  | JArr l => Ok (Z.of_nat (List.length l))
  | JObj kvs => Ok (Z.of_nat (List.length kvs))
  | JStr s => Ok (Z.of_nat (List.length s))
  | _ => Raise TypeError
  end.

(** [l[i]] on a list of length [n]: indices [-n .. n-1], the negative ones
    counted from the end; anything else raises [IndexError]. *)
Definition list_getitem {A} (l : list A) (i : Z) : result A :=
  let n := Z.of_nat (List.length l) in
  let j := if i <? 0 then i + n else i in
  if (j <? 0) || (n <=? j) then Raise IndexError
  else match nth_error l (Z.to_nat j) with
       | Some x => Ok x
       | None => Raise IndexError
       end.

(** [v[i]] for an [int] subscript [i].  The keys of a decoded object are
    strings, so an [int] subscript on a [dict] is always a missing key. *)
Definition py_getitem (v : json) (i : Z) : result json :=
  match v with
  | JArr l => list_getitem l i
  | JObj _ => Raise KeyError
  | JStr s => c <- list_getitem s i ;; Ok (JStr [c])
  | _ => Raise TypeError
  end.

(** [key in d] and [d[key]] for a string key. *)
Fixpoint dict_get (key : str) (kvs : list (str * json)) : option json :=
  match kvs with
  | [] => None
  | (k, v) :: rest => if eqb k key then Some v else dict_get key rest
  end.

(** A naive [datetime]: microseconds on the local time line.  A
    [timedelta] is a number of microseconds. *)
Definition datetime := Z.
Definition minutes (k : Z) : Z := k * 60000000.
Definition hours (k : Z) : Z := k * 3600000000.

(** [f > z] for a float [f] and an int [z]; Python compares the exact
    values, and [nan] compares false. *)
Definition float_gtb_int (f : spec_float) (z : Z) : bool :=
  match f with
  | S754_nan => false
  | S754_infinity neg => negb neg
  | S754_zero _ => 0 >? z
  | S754_finite neg m e =>
      let v := if neg then Z.neg m else Z.pos m in
      if 0 <=? e then v * 2 ^ e >? z else v >? z * 2 ^ (- e)
  end.

Definition num_gtb_int (n : number) (z : Z) : bool :=
  match n with
  | NInt i => i >? z
  | NFloat f => float_gtb_int f z
  end.

(** ** What the interpreter supplies *)

Record runtime : Type := {
  (** per-character tests behind [str.strip], [str.isdigit], [str.isalnum] *)
  isspace : N -> bool;
  isdigit_char : N -> bool;
  isalnum_char : N -> bool;
  (** [s.lower()] *)
  lower : str -> str;
  (** [int(s)]; [None] stands for [ValueError] *)
  int_of_str : str -> option Z;
  (** [str(v)] for a value that is not a [str] *)
  repr : json -> str;
  (** [value / 1000] *)
  truediv_1000 : number -> result spec_float;
  (** [datetime.fromtimestamp(value)] *)
  fromtimestamp : number -> result datetime;
  (** [datetime.strptime(value, fmt)] *)
  strptime : str -> str -> result datetime;
  (** the instant the k-th call of [datetime.now()] returns *)
  clock : nat -> datetime
}.

(* ================================================================== *)
(** ** The engine *)
(* ================================================================== *)

Section Engine.

Variable R : runtime.

(** *** String methods that consult the Unicode tables *)

Definition len (s : str) : Z := Z.of_nat (List.length s).

Fixpoint lstrip (s : str) : str :=
  match s with
  | [] => []
  | c :: s' => if isspace R c then lstrip s' else s
  end.

(** [s.strip()] *)
Definition strip (s : str) : str := rev (lstrip (rev (lstrip s))).

(** [s.isdigit()] and [s.isalnum()]: false on the empty string. *)
Definition isdigit (s : str) : bool :=
  match s with [] => false | _ => forallb (isdigit_char R) s end.
Definition isalnum (s : str) : bool :=
  match s with [] => false | _ => forallb (isalnum_char R) s end.

(** [str(v)] *)
Definition py_str (v : json) : str :=
  match v with JStr s => s | _ => repr R v end.

(** [any(p in s for p in ps)] *)
Definition any_in (ps : list str) (s : str) : bool :=
  existsb (fun p => contains p s) ps.

(** *** NoiseFilter: [is_real_conversation_message] *)

Definition technical_keywords : list str :=
  map lit
    ["langchain_core"; "OPENAI_API_KEY"; "finish_reason"; "stop";
     "generationInfo"; "HumanMessage"; "AIMessage"; "SystemMessage";
     "BaseMessage"; "ChatMessage"; "function_call"; "tool_calls";
     "response_metadata"; "usage_metadata"; "prompt_tokens";
     "completion_tokens"; "total_tokens"]%string.

Definition prompt_indicators : list str :=
  map lit
    ["You are"; "Tu eres"; "Eres un"; "Your role is"; "Tu rol es";
     "Instructions:"; "Instrucciones:"; "System:"; "Sistema:";
     "Context:"; "Contexto:"; "Guidelines:"; "Directrices:";
     "Rules:"; "Reglas:"; "Please follow"; "Por favor sigue";
     "assistant"; "asistente"; "chatbot"; "AI model";
     "modelo de IA"]%string.

(** The argument is a [str] at every call site, so the [isinstance] test of
    the first line always passes and only the length test remains. *)
Definition is_real_conversation_message (text : str) : bool :=
  if len (strip text) <? 3 then false
  else if any_in technical_keywords text then false
  else if startswith (lit "{") text && endswith (lit "}") text then false
  else if startswith (lit "http") text
          && (contains (lit "api") (lower R text)
              || contains (lit "webhook") (lower R text)) then false
  else if (len text >? 1000) && any_in prompt_indicators text then false
  else if (len text <? 50)
          && (isdigit text || isalnum text && (len text >? 20)) then false
  else true.

(** A string the filter accepts. *)
Definition clean (t : str) : Prop := is_real_conversation_message t = true.

(** *** SenderClassifier: [determine_sender] *)

Inductive sender : Type := user | bot.

Definition HumanMessage : str := lit "HumanMessage".
Definition AIMessage : str := lit "AIMessage".

(** The two running totals of the scored heuristic. *)
Record scores : Type := { user_score : Z; bot_score : Z }.

Definition add_user (k : Z) (s : scores) : scores :=
  {| user_score := user_score s + k; bot_score := bot_score s |}.
Definition add_bot (k : Z) (s : scores) : scores :=
  {| user_score := user_score s; bot_score := bot_score s + k |}.

Definition strong_user_patterns : list str :=
  map lit ["hola"; "hello"; "hi"; "gracias"; "thanks"; "ok"; "si"; "yes";
           "no"; "cotiza"; "cotizame"; "precio"; "cuanto"; "how much";
           "quiero"; "necesito"; "dame"]%string
  ++ [lit "env" ++ [237%N] ++ lit "a"]
  ++ map lit ["manda"; "por favor"]%string.

Definition strong_bot_patterns : list str :=
  map lit ["puedo ayudarte"; "can i help"; "te recomiendo"; "i recommend";
           "contactar"; "contact"; "especialista"; "specialist"]%string
  ++ [lit "cat" ++ [225%N] ++ lit "logo";
      lit "informaci" ++ [243%N] ++ lit "n"]
  ++ map lit ["information"; "whatsapp"; "enlace"; "link"; "de nada";
              "you're welcome"]%string
  ++ [lit "buen d" ++ [237%N] ++ lit "a"]
  ++ map lit ["good day"; "si necesitas"; "if you need"; "no dudes";
              "don't hesitate"]%string.

(** [for pattern in patterns: if pattern in content_lower: score += 3] *)
Definition count_patterns (add : Z -> scores -> scores) (patterns : list str)
           (content_lower : str) (s : scores) : scores :=
  fold_left (fun s pattern =>
               if contains pattern content_lower then add 3 s else s)
            patterns s.

(** The [if]/[elif] chain on [length]. *)
Definition length_band (length : Z) (s : scores) : scores :=
  if length <? 20 then add_user 4 s
  else if length <? 50 then add_user 2 s
  else if length >? 150 then add_bot 3 s
  else if length >? 300 then add_bot 5 s
  else s.

Definition formal_words : list str :=
  map lit ["Sr."; "Sra."; "estimado"; "estimada"]%string.

Definition informal_tokens : list str :=
  [[128522%N]; [128516%N]; [128077%N]]
  ++ map lit [":)"; ":D"; "jaja"; "jeje"]%string.

Definition service_phrases : list str :=
  [lit "puedo ayudarte";
   lit "en qu" ++ [233%N] ++ lit " puedo";
   lit "c" ++ [243%N] ++ lit "mo puedo"].

Definition request_words : list str :=
  map lit ["dame"; "quiero"; "necesito"]%string.

(** The content heuristic: everything below the comment
    "Análisis heurístico del contenido". *)
Definition scored_heuristic (content : str) : sender :=
  let content_lower := lower R content in
  let s := {| user_score := 0; bot_score := 0 |} in
  let s := count_patterns add_user strong_user_patterns content_lower s in
  let s := count_patterns add_bot strong_bot_patterns content_lower s in
  let length := len content in
  let s := length_band length s in
  let s := if endswith (lit "?") content && (length >? 30)
           then add_bot 4 s else s in
  let s := if (length <? 30) && negb (endswith (lit "?") content)
           then add_user 3 s else s in
  let s := if contains (lit "http") content_lower
              || contains (lit "wa.me") content_lower
              || contains (lit "www.") content_lower
           then add_bot 8 s else s in
  let sentence_count :=
    (count 46 content + count 33 content + count 63 content)%nat in
  let s := if (1 <? sentence_count)%nat then add_bot 3 s else s in
  let s := if any_in formal_words content then add_bot 3 s else s in
  let s := if any_in informal_tokens content then add_user 2 s else s in
  let s := if startswith (lit "hola") content_lower && (length <? 30)
           then add_user 6 s else s in
  let s := if any_in service_phrases content_lower
           then add_bot 8 s else s in
  if contains (lit "cotiza") content_lower && (length <? 100) then user
  else
    let s := if any_in request_words content_lower && (length <? 100)
             then add_user 5 s else s in
    if bot_score s >? user_score s then bot else user.

(** A distance to the nearest marker; [None] is [float('inf')]. *)
Definition dist_ltb (a b : option Z) : bool :=
  match a, b with
  | Some x, Some y => x <? y
  | Some _, None => true
  | None, _ => false
  end.

Definition dist_leb_int (a : option Z) (k : Z) : bool :=
  match a with Some x => x <=? k | None => false end.

(** [min(abs(pos - p) for pos in positions)], [inf] when there is none. *)
Definition closest (positions : list Z) (p : Z) : option Z :=
  fold_left (fun best pos =>
               let d := Z.abs (pos - p) in
               match best with
               | None => Some d
               | Some b => Some (Z.min b d)
               end)
            positions None.

(** The index of the first element that is a string equal to [content]
    once both are stripped. *)
Fixpoint find_position (content : str) (data : list json) (i : Z)
  : option Z :=
  match data with
  | [] => None
  | item :: rest =>
      match item with
      | JStr s => if eqb (strip s) (strip content) then Some i
                  else find_position content rest (i + 1)
      | _ => find_position content rest (i + 1)
      end
  end.

(** [range(lo, hi)] *)
Definition range (lo hi : Z) : list Z :=
  map (fun k => lo + Z.of_nat k) (seq 0 (Z.to_nat (hi - lo))).

(** The positions [k] of the window whose element is the string
    [marker]. *)
Definition marker_positions (marker : str) (data : list json)
           (lo hi : Z) : list Z :=
  filter (fun k => match nth_error data (Z.to_nat k) with
                   | Some (JStr s) => eqb s marker
                   | _ => false
                   end)
         (range lo hi).

(** Rule 4: the positional proximity test. [None]: no decision. *)
Definition proximity (content : str) (data : json) : option sender :=
  match data with
  | JArr items =>
      match find_position content items 0 with
      | Some content_position =>
          let search_range := 20 in
          let lo := Z.max 0 (content_position - search_range) in
          let hi := Z.min (Z.of_nat (List.length items))
                          (content_position + search_range) in
          let human_positions := marker_positions HumanMessage items lo hi in
          (* [elif]: a position is an AI position only if it is not a
             human one, which the two distinct literals ensure *)
          let ai_positions := marker_positions AIMessage items lo hi in
          let closest_human_dist := closest human_positions content_position in
          let closest_ai_dist := closest ai_positions content_position in
          if dist_ltb closest_human_dist closest_ai_dist
             && dist_leb_int closest_human_dist 15 then Some user
          else if dist_ltb closest_ai_dist closest_human_dist
                  && dist_leb_int closest_ai_dist 15 then Some bot
          else None
      | None => None
      end
  | _ => None
  end.

(** The rules on known phrases that open [determine_sender], up to the
    comment "TERCERO". [None]: none of them returns. *)
Definition known_phrases (content : str) : option sender :=
  let content_clean := lower R (strip content) in
  if eqb content_clean (lit "hola 1356") then Some user
  else if eqb content_clean (lit "cotizame 1 ciento de llaves") then Some user
  else if eqb content_clean (lit "ok gracias") then Some user
  else if contains ([191%N] ++ lit "en qu" ++ [233%N] ++ lit " puedo ayudarte")
                   content_clean then Some bot
  else if contains (lit "te recomiendo contactar") content_clean then Some bot
  else if contains (lit "de nada! si necesitas") content_clean then Some bot
  else if contains (lit "cotiza") content_clean && (len content <? 100)
       then Some user
  else None.

(** The cascade: the first rule that returns decides. [path] is lowered
    by the code and then not used. *)
Definition determine_sender (content path : str) (data : json) : sender :=
  match known_phrases content with
  | Some who => who
  | None =>
      let path_lower := lower R path in
      match proximity content data with
      | Some who => who
      | None => scored_heuristic content
      end
  end.

(** *** ContentExtractor: [extract_conversation_from_data] *)

(** An entry of [content_messages]. *)
Record content_msg : Type :=
  { cm_content : str; cm_path : str; cm_ref : option Z }.

(** An entry of the list [extract_conversation_from_data] returns. *)
Record message : Type := { msg_sender : sender; msg_text : str }.

(** [f"{path}.{key}" if path else key] *)
Definition path_key (path key : str) : str :=
  match path with
  | [] => key
  | _ => path ++ lit "." ++ key
  end.

(** [f"{path}[{i}]" if path else f"[{i}]"] *)
Definition path_index (path : str) (i : nat) : str :=
  match path with
  | [] => lit "[" ++ str_of_nat i ++ lit "]"
  | _ => path ++ lit "[" ++ str_of_nat i ++ lit "]"
  end.

(** [int(s)] as a computation: a string that is no integer raises
    [ValueError]. *)
Definition py_int (s : str) : result Z :=
  match int_of_str R s with
  | Some z => Ok z
  | None => Raise ValueError
  end.

(** What [find_content_references] does with one [dict] before it descends
    into it: the [if "content" in obj ...] block with its [try]/[except].
    [content_messages] is the list accumulated so far. *)
Definition visit_content (data : json) (obj : list (str * json))
           (path : str) (content_messages : list content_msg)
  : result (list content_msg) :=
  match dict_get (lit "content") obj with
  | Some (JStr content) =>
      try_except
        (content_ref <- py_int content ;;
         n <- py_len data ;;
         if content_ref <? n then
           actual_content <- py_getitem data content_ref ;;
           match actual_content with
           | JStr a =>
               if is_real_conversation_message a
               then Ok (content_messages ++
                          [{| cm_content := a; cm_path := path;
                              cm_ref := Some content_ref |}])
               else Ok content_messages
           | _ => Ok content_messages
           end
         else Ok content_messages)
        [ValueError; IndexError]
        (if is_real_conversation_message content
         then Ok (content_messages ++
                    [{| cm_content := content; cm_path := path;
                        cm_ref := None |}])
         else Ok content_messages)
  | _ => Ok content_messages
  end.

Fixpoint find_content_references (data : json) (obj : json) (path : str)
         (content_messages : list content_msg)
  : result (list content_msg) :=
  match obj with
  | JObj kvs =>
      acc <- visit_content data kvs path content_messages ;;
      for_each (fun _ '(key, value) acc =>
                  find_content_references data value (path_key path key) acc)
               kvs 0%nat acc
  | JArr l =>
      for_each (fun i item acc =>
                  find_content_references data item (path_index path i) acc)
               l 0%nat content_messages
  | _ => Ok content_messages
  end.

(** The deduplication loop; [seen_contents] is the set built so far. *)
Fixpoint unique_messages (seen_contents : list str)
         (content_messages : list content_msg) : list content_msg :=
  match content_messages with
  | [] => []
  | msg_info :: rest =>
      let content := cm_content msg_info in
      if mem content seen_contents then unique_messages seen_contents rest
      else msg_info :: unique_messages (content :: seen_contents) rest
  end.

(** The fallback [while i < len(data)] loop, on the part of [data] from
    index [i] on: [i + 1 < len(data)] holds when a next element exists, and
    [i += 2] drops two elements. *)
Fixpoint marker_scan (data : list json) (seen_texts : list str)
         (messages : list message) : list message :=
  match data with
  | [] => messages
  | JStr item :: rest =>
      let plain (_ : unit) :=
        if is_real_conversation_message item && negb (mem item seen_texts)
        then marker_scan rest (item :: seen_texts)
               (messages ++
                  [{| msg_sender := if len item <? 100 then user else bot;
                      msg_text := item |}])
        else marker_scan rest seen_texts messages in
      let paired (who : sender) :=
        match rest with
        | next :: rest' =>
            let text := py_str next in
            if is_real_conversation_message text && negb (mem text seen_texts)
            then marker_scan rest' (text :: seen_texts)
                   (messages ++ [{| msg_sender := who; msg_text := text |}])
            else marker_scan rest' seen_texts messages
        | [] => plain tt
        end in
      if eqb item HumanMessage then paired user
      else if eqb item AIMessage then paired bot
      else plain tt
  | _ :: rest => marker_scan rest seen_texts messages
  end.

(** [isinstance(item, str) and item in ["HumanMessage", "AIMessage"]] *)
Definition is_marker (item : json) : bool :=
  match item with
  | JStr s => eqb s HumanMessage || eqb s AIMessage
  | _ => false
  end.

Definition extract_conversation_from_data (data : json)
  : result (list message) :=
  match data with
  | JArr items =>
      let has_conversation := existsb is_marker items in
      if negb has_conversation then Ok []
      else
        content_messages <- find_content_references data data [] [] ;;
        let messages :=
          map (fun msg_info =>
                 {| msg_sender := determine_sender (cm_content msg_info)
                                                   (cm_path msg_info) data;
                    msg_text := cm_content msg_info |})
              (unique_messages [] content_messages) in
        match messages with
        | [] => Ok (marker_scan items [] [])
        | _ => Ok messages
        end
  | _ => Ok []
  end.

(** *** UserInfoExtractor: [extract_user_info] *)

(** The two [nonlocal] variables of [search_user_info]. *)
Record user_info : Type :=
  { phone_number : option str; user_name : option str }.

Definition is_valid_phone_number (phone_str : str) : bool :=
  if negb (isdigit phone_str) then false
  else if (len phone_str >=? 7) && (len phone_str <=? 15) then true
  else false.

Definition set_phone (p : str) (st : user_info) : user_info :=
  {| phone_number := Some p; user_name := user_name st |}.
Definition set_name (n : str) (st : user_info) : user_info :=
  {| phone_number := phone_number st; user_name := Some n |}.

(** [not phone_number]: [None] and the empty string are falsy. *)
Definition falsy (s : option str) : bool :=
  match s with None | Some [] => true | Some _ => false end.

(** The [if 'name' in key.lower() ...] block for a string [value]. *)
Definition visit_name (data : json) (value : str) (st : user_info)
  : result user_info :=
  try_except
    (name_ref <- py_int value ;;
     n <- py_len data ;;
     if name_ref <? n then
       item <- py_getitem data name_ref ;;
       match item with
       | JStr potential_name =>
           if (len potential_name >? 3) && negb (isdigit potential_name)
           then Ok (set_name potential_name st) else Ok st
       | _ => Ok st
       end
     else Ok st)
    [ValueError; IndexError]
    (if (len value >? 3) && negb (isdigit value)
     then Ok (set_name value st) else Ok st).

(** One pass of the [for key, value in obj.items()] body, before the
    recursive call. *)
Definition visit_item (data : json) (key : str) (value : json)
           (st : user_info) : result user_info :=
  let st :=
    match value with
    | JStr v => if contains (lit "from") (lower R key)
                   && is_valid_phone_number v
                then set_phone v st else st
    | _ => st
    end in
  match value with
  | JStr v => if contains (lit "name") (lower R key)
              then visit_name data v st else Ok st
  | _ => Ok st
  end.

Fixpoint search_user_info (data : json) (obj : json) (st : user_info)
  : result user_info :=
  match obj with
  | JObj kvs =>
      for_each (fun _ '(key, value) st =>
                  st <- visit_item data key value st ;;
                  search_user_info data value st)
               kvs 0%nat st
  | JArr l =>
      for_each (fun _ item st => search_user_info data item st) l 0%nat st
  | JStr s =>
      if is_valid_phone_number s && falsy (phone_number st)
      then Ok (set_phone s st) else Ok st
  | _ => Ok st
  end.

Definition extract_user_info (data : json) : result user_info :=
  search_user_info data data {| phone_number := None; user_name := None |}.

(** *** TimestampExtractor: [extract_timestamps_from_data] *)

(** [list.sort(key=...)] is a stable ascending sort; insertion from the
    right, placing an element before the first one that is not smaller,
    computes the same list. *)
Fixpoint insert_by {A : Type} (key : A -> Z) (x : A) (l : list A) : list A :=
  match l with
  | [] => [x]
  | y :: l' => if key x <=? key y then x :: l else y :: insert_by key x l'
  end.

Definition sort_by {A : Type} (key : A -> Z) (l : list A) : list A :=
  fold_right (insert_by key) [] l.

(** The order [sort_by key] sorts by. *)
Definition key_le {A : Type} (key : A -> Z) (a b : A) : Prop :=
  key a <= key b.

Definition time_keys : list str :=
  map lit ["time"; "date"; "created"; "timestamp"; "at"]%string.

Definition time_formats : list str :=
  map lit ["%Y-%m-%d %H:%M:%S"; "%Y-%m-%dT%H:%M:%S"; "%d/%m/%Y %H:%M:%S";
           "%Y-%m-%d"; "%d/%m/%Y"]%string.

(** [isinstance(value, (int, float))]; a [bool] is an [int]. *)
Definition as_number (value : json) : option number :=
  match value with
  | JNum n => Some n
  | JBool b => Some (NInt (if b then 1 else 0))
  | _ => None
  end.

(** The [for fmt in ...] loop: the first format that parses wins, a
    [ValueError] moves on to the next one. *)
Fixpoint try_formats (value : str) (fmts : list str)
         (timestamps : list datetime) : result (list datetime) :=
  match fmts with
  | [] => Ok timestamps
  | fmt :: rest =>
      match strptime R value fmt with
      | Ok timestamp => Ok (timestamps ++ [timestamp])
      | Raise ValueError => try_formats value rest timestamps
      | Raise e => Raise e
      end
  end.

(** The outer [try] block for one value under a time-like key.  The
    boolean is true when the block ends in [continue], which skips the
    recursive call for this key. *)
Definition probe_timestamp (value : json) (timestamps : list datetime)
  : result (list datetime * bool) :=
  try_except
    (match as_number value with
     | Some v =>
         if num_gtb_int v 1000000000000 then
           q <- truediv_1000 R v ;;
           timestamp <- fromtimestamp R (NFloat q) ;;
           Ok (timestamps ++ [timestamp], false)
         else if num_gtb_int v 1000000000 then
           timestamp <- fromtimestamp R v ;;
           Ok (timestamps ++ [timestamp], false)
         else Ok (timestamps, true)
     | None =>
         match value with
         | JStr s =>
             ts <- try_formats s time_formats timestamps ;;
             Ok (ts, false)
         | _ => Ok (timestamps, false)
         end
     end)
    [ValueError; OSError]
    (Ok (timestamps, false)).

Fixpoint search_for_timestamps (obj : json) (path : str)
         (timestamps : list datetime) : result (list datetime) :=
  match obj with
  | JObj kvs =>
      for_each (fun _ '(key, value) acc =>
                  let new_path := path_key path key in
                  r <- (if any_in time_keys (lower R key)
                        then probe_timestamp value acc
                        else Ok (acc, false)) ;;
                  let '(acc, skip) := r in
                  if skip then Ok acc
                  else search_for_timestamps value new_path acc)
               kvs 0%nat timestamps
  | JArr l =>
      for_each (fun i item acc =>
                  search_for_timestamps item
                    (path ++ lit "[" ++ str_of_nat i ++ lit "]") acc)
               l 0%nat timestamps
  | _ => Ok timestamps
  end.

(** The ten placeholder instants: [base_time + timedelta(minutes=i * 2)]
    for [i] in [range(10)]. *)
Definition default_timestamps (base_time : datetime) : list datetime :=
  map (fun i => base_time + minutes (i * 2)) (range 0 10).

(** [tick] counts the calls of [datetime.now()] made so far; the function
    returns the count after its own calls. *)
Definition extract_timestamps_from_data (data : json) (tick : nat)
  : result (list datetime * nat) :=
  timestamps <- search_for_timestamps data [] [] ;;
  match timestamps with
  | [] =>
      let base_time := clock R tick - hours 1 in
      Ok (sort_by (fun t => t) (default_timestamps base_time), S tick)
  | _ => Ok (sort_by (fun t => t) timestamps, tick)
  end.

(** *** ConversationAssembler: [extract_chat_messages] *)

(** A message of the returned record. *)
Record chat_message : Type :=
  { sender_of : sender; text : str; timestamp : datetime }.

(** The returned [dict]; [status] is present only in the record without
    conversation. *)
Record chat : Type :=
  { id : str;
    created : datetime;
    updated : datetime;
    messages : list chat_message;
    no_conversation : bool;
    status : option str;
    chat_user_info : user_info }.

(** The [for i, msg in enumerate(conversation_messages)] loop from index
    [i] on; [total] is [len(conversation_messages)]. *)
Fixpoint assign_timestamps (msgs : list message) (i : nat) (total : Z)
         (timestamps : list datetime) (tick : nat)
         (acc : list chat_message) : list chat_message * nat :=
  match msgs with
  | [] => (acc, tick)
  | msg :: rest =>
      match nth_error timestamps i with
      | Some t =>
          assign_timestamps rest (S i) total timestamps tick
            (acc ++ [{| sender_of := msg_sender msg; text := msg_text msg;
                        timestamp := t |}])
      | None =>
          let base_time := clock R tick - minutes (total - Z.of_nat i) in
          assign_timestamps rest (S i) total timestamps (S tick)
            (acc ++ [{| sender_of := msg_sender msg; text := msg_text msg;
                        timestamp := base_time |}])
      end
  end.

Definition status_no_conversation : str :=
  lit "Registro sin conversaci" ++ [243%N] ++ lit "n".

Definition extract_chat_messages (execution_data : json) (chat_id : str)
           (tick : nat) : result (chat * nat) :=
  user_info <- extract_user_info execution_data ;;
  conversation_messages <- extract_conversation_from_data execution_data ;;
  match conversation_messages with
  | [] =>
      Ok ({| id := chat_id;
             created := clock R tick;
             updated := clock R (S tick);
             messages := [];
             no_conversation := true;
             status := Some status_no_conversation;
             chat_user_info := user_info |}, S (S tick))
  | _ =>
      r <- extract_timestamps_from_data execution_data tick ;;
      let '(timestamps, tick) := r in
      let '(messages, tick) :=
        assign_timestamps conversation_messages 0
          (Z.of_nat (List.length conversation_messages)) timestamps tick [] in
      let messages := sort_by timestamp messages in
      let '(conversation_created, tick) :=
        match messages with
        | m :: _ => (timestamp m, tick)
        | [] => (clock R tick, S tick)
        end in
      Ok ({| id := chat_id;
             created := conversation_created;
             updated := clock R tick;
             messages := messages;
             no_conversation := false;
             status := None;
             chat_user_info := user_info |}, S tick)
  end.

(** A message of the record without its timestamp. *)
Definition untimed (m : chat_message) : message :=
  {| msg_sender := sender_of m; msg_text := text m |}.

(** The record without conversation that [extract_chat_messages] builds
    at the [tick]-th reading of the clock. *)
Definition empty_chat (chat_id : str) (tick : nat) (ui : user_info) : chat :=
  {| id := chat_id;
     created := clock R tick;
     updated := clock R (S tick);
     messages := [];
     no_conversation := true;
     status := Some status_no_conversation;
     chat_user_info := ui |}.

(** *** [get_chat_preview] *)

Definition preview_no_conversation : str :=
  lit "Sin conversaci" ++ [243%N] ++ lit "n".

Definition preview_no_messages : str := lit "Sin mensajes".

(** The record [extract_chat_messages] returns always has the keys
    [messages] and [no_conversation], and its messages the keys [text] and
    [sender], so the defaults of the [.get] calls are never used. *)
Definition get_chat_preview (chat_data : chat) : str :=
  match messages chat_data with
  | [] =>
      if no_conversation chat_data then preview_no_conversation
      else preview_no_messages
  | first_message :: _ =>
      let preview_text := text first_message in
      let preview_text :=
        if len preview_text >? 100
        then firstn 97 preview_text ++ lit "..."
        else preview_text in
      let sender_label :=
        match sender_of first_message with
        | user => [128100%N]
        | bot => [129302%N]
        end in
      sender_label ++ lit " " ++ preview_text
  end.

(** *** [get_value_at_path] *)

(** The first loop: [current] is the segment being read and [parts] the
    segments closed so far. *)
Fixpoint split_path (path : str) (current : str) (parts : list str)
  : list str :=
  match path with
  | [] =>
      match current with
      | [] => parts
      | _ => parts ++ [current]
      end
  | char :: rest =>
      if (char =? 91)%N && negb (eqb current []) then
        split_path rest (lit "[") (parts ++ [current])
      else if (char =? 93)%N && startswith (lit "[") current then
        split_path rest [] (parts ++ [current ++ lit "]"])
      else if (char =? 46)%N && negb (eqb current []) then
        split_path rest [] (parts ++ [current])
      else split_path rest (current ++ [char]) parts
  end.

(** What one pass of the second loop does to [result]: a new value, an
    exception of the [except] clause, or the [AttributeError] of calling
    [.get] on a value that is not a [dict], which the clause does not
    list. *)
Inductive step : Type :=
| Next (result : json)
| Caught (e : exn)
| AttributeError.

(** [part[1:-1]] *)
Definition strip_brackets (part : str) : str := removelast (tl part).

Definition navigate (result : json) (part : str) : step :=
  if startswith (lit "[") part && endswith (lit "]") part then
    match int_of_str R (strip_brackets part) with
    | None => Caught ValueError
    | Some index =>
        match py_getitem result index with
        | Ok v => Next v
        | Raise e => Caught e
        end
    end
  else
    match result with
    | JObj kvs =>
        Next (match dict_get part kvs with
              | Some v => v
              | None => JObj []
              end)
    | _ => AttributeError
    end.

(** The outcome of [get_value_at_path]: a returned value ([None] is
    [JNull]) or the uncaught [AttributeError]. *)
Inductive path_outcome : Type :=
| Returns (v : json)
| RaisesAttributeError.

Fixpoint navigate_all (result : json) (parts : list str) : path_outcome :=
  match parts with
  | [] => Returns result
  | part :: rest =>
      match navigate result part with
      | Next v => navigate_all v rest
      | Caught _ => Returns JNull
      | AttributeError => RaisesAttributeError
      end
  end.

Definition get_value_at_path (data : json) (path : str) : path_outcome :=
  navigate_all data (split_path path [] []).

(** *** [find_messages_in_data] *)

(** An entry of [results]. *)
Record found_message : Type := { fm_path : str; fm_value : str }.

(** [for i, x in enumerate(l, i0): results.extend(f(i, x))] *)
Definition extend_each {A B : Type} (f : nat -> A -> list B)
  : list A -> nat -> list B :=
  fix loop (l : list A) (i : nat) : list B :=
    match l with
    | [] => []
    | x :: rest => f i x ++ loop rest (S i)
    end.

Fixpoint find_messages_in_data (data : json) (path : str)
  : list found_message :=
  match data with
  | JObj kvs =>
      extend_each
        (fun _ '(key, value) =>
           let new_path := path_key path key in
           (if contains (lit "message") (lower R key)
               || contains (lit "text") (lower R key)
            then [{| fm_path := new_path;
                     fm_value := firstn 100 (py_str value) ++ lit "..." |}]
            else [])
           ++ find_messages_in_data value new_path)
        kvs 0%nat
  | JArr l =>
      extend_each
        (fun i item =>
           find_messages_in_data item
             (path ++ lit "[" ++ str_of_nat i ++ lit "]"))
        l 0%nat
  | _ => []
  end.

(** *** [describe_structure] *)

(** [type(data).__name__] for a value that is neither [dict] nor [list]. *)
Definition type_name (data : json) : str :=
  match data with
  | JNull => lit "NoneType"
  | JBool _ => lit "bool"
  | JNum (NInt _) => lit "int"
  | JNum (NFloat _) => lit "float"
  | JStr _ => lit "str"
  | JArr _ => lit "list"
  | JObj _ => lit "dict"
  end.

Fixpoint describe_structure (data : json) : json :=
  match data with
  | JObj kvs =>
      JObj (map (fun '(key, value) => (key, describe_structure value)) kvs)
  | JArr l =>
      match l with
      | first :: _ => JArr [describe_structure first]
      | [] => JArr []
      end
  | _ => JStr (type_name data)
  end.

End Engine.

(* ================================================================== *)
(** ** The listing: the loops of [list_chats_internal] *)
(* ================================================================== *)

(** The part of [list_chats_internal] between [cur.fetchall()] and
    [render_template]: the rows come in as [(execution_id, data)] pairs and
    the date filter, already parsed, as [target_date].  The cache, the
    database and the templates stay outside. *)

(** A [date]: a day of the calendar. *)
Definition date := Z.

(** What the interpreter supplies for dates. *)
Record calendar : Type := {
  (** [d.date()] of a datetime *)
  date_of : datetime -> date;
  (** [d.strftime(fmt)] of a date *)
  strftime : str -> date -> str
}.

(** The [chat_summary] dict; [total_records] is set by the second loop. *)
Record chat_summary : Type :=
  { cs_id : str;
    cs_date : date;
    cs_date_str : str;
    cs_phone_number : str;
    cs_user_name : option str;
    cs_message_count : Z;
    cs_has_conversation : bool;
    cs_preview : str;
    cs_data_size : Z;
    cs_total_records : option Z }.

(** A value of [chats_by_date]. *)
Record date_group : Type :=
  { dg_date : date; dg_date_str : str; dg_chats : list chat_summary }.

Section Listing.

Variable R : runtime.
Variable C : calendar.

(** The body of the first loop for one row: the pair of
    [phone_date_key] and summary it files, if it files one, and the
    number of clock readings afterwards.  [None] stands for both
    [continue]s and for the [except Exception] branch, which prints and
    goes on.  [extract_chat_messages] reads the clock only when nothing can
    raise any more, so a raise leaves the count as it was. *)
Definition summarize (target_date : option date) (execution_id : str)
           (data : json) (tick : nat)
  : option (str * chat_summary) * nat :=
  match extract_chat_messages R data execution_id tick with
  | Raise _ => (None, tick)
  | Ok (chat_data, tick) =>
      let user_info := chat_user_info chat_data in
      match extract_timestamps_from_data R data tick with
      | Raise _ => (None, tick)
      | Ok (timestamps, tick) =>
          let '(chat_date, tick) :=
            match timestamps with
            | t :: _ => (date_of C t, tick)
            | [] => (date_of C (clock R tick), S tick)
            end in
          let filtered_out :=
            match target_date with
            | Some d => negb (chat_date =? d)
            | None => false
            end in
          if filtered_out then (None, tick)
          else
            let has_conversation := negb (no_conversation chat_data) in
            match phone_number user_info with
            | Some (c :: p) =>
                let phone_number := c :: p in
                if has_conversation then
                  let chat_summary :=
                    {| cs_id := execution_id;
                       cs_date := chat_date;
                       cs_date_str := strftime C (lit "%d/%m/%Y") chat_date;
                       cs_phone_number := phone_number;
                       cs_user_name := user_name user_info;
                       cs_message_count :=
                         Z.of_nat (List.length (messages chat_data));
                       cs_has_conversation := true;
                       cs_preview := get_chat_preview chat_data;
                       cs_data_size := len (py_str R data);
                       cs_total_records := None |} in
                  let phone_date_key :=
                    phone_number ++ lit "_"
                    ++ strftime C (lit "%Y-%m-%d") chat_date in
                  (Some (phone_date_key, chat_summary), tick)
                else (None, tick)
            | _ => (None, tick)
            end
      end
  end.

(** [if key not in d: d[key] = []] followed by [d[key].append(x)], on a
    dict kept as its item list. *)
Fixpoint file_under {A : Type} (key : str) (x : A)
         (d : list (str * list A)) : list (str * list A) :=
  match d with
  | [] => [(key, [x])]
  | (k, l) :: rest =>
      if eqb k key then (k, l ++ [x]) :: rest
      else (k, l) :: file_under key x rest
  end.

(** The first loop: [chats_by_phone] after the rows. *)
Fixpoint collect (target_date : option date)
         (executions : list (str * json)) (tick : nat)
         (chats_by_phone : list (str * list chat_summary))
  : list (str * list chat_summary) * nat :=
  match executions with
  | [] => (chats_by_phone, tick)
  | (execution_id, data) :: rest =>
      match summarize target_date execution_id data tick with
      | (Some (key, summary), tick) =>
          collect target_date rest tick (file_under key summary chats_by_phone)
      | (None, tick) => collect target_date rest tick chats_by_phone
      end
  end.

(** [max(first :: rest, key=lambda x: x['data_size'])]: the first of the
    elements with the largest size. *)
Definition largest (first : chat_summary) (rest : list chat_summary)
  : chat_summary :=
  fold_left (fun best chat =>
               if cs_data_size chat >? cs_data_size best then chat else best)
            rest first.

(** [sum(chat['message_count'] for chat in phone_chats)] *)
Definition total_messages (phone_chats : list chat_summary) : Z :=
  fold_left (fun total chat => total + cs_message_count chat) phone_chats 0.

(** The chat the second loop appends for one group. *)
Definition best_chat (first : chat_summary) (rest : list chat_summary)
  : chat_summary :=
  let best := largest first rest in
  {| cs_id := cs_id best;
     cs_date := cs_date best;
     cs_date_str := cs_date_str best;
     cs_phone_number := cs_phone_number best;
     cs_user_name := cs_user_name best;
     cs_message_count := total_messages (first :: rest);
     cs_has_conversation := cs_has_conversation best;
     cs_preview := cs_preview best;
     cs_data_size := cs_data_size best;
     cs_total_records := Some (Z.of_nat (List.length (first :: rest))) |}.

(** [chats_by_date] with one more chat. *)
Fixpoint file_by_date (date_key : str) (chat : chat_summary)
         (d : list (str * date_group)) : list (str * date_group) :=
  match d with
  | [] => [(date_key, {| dg_date := cs_date chat;
                         dg_date_str := cs_date_str chat;
                         dg_chats := [chat] |})]
  | (k, g) :: rest =>
      if eqb k date_key
      then (k, {| dg_date := dg_date g; dg_date_str := dg_date_str g;
                  dg_chats := dg_chats g ++ [chat] |}) :: rest
      else (k, g) :: file_by_date date_key chat rest
  end.

(** The second loop: [all_chats] and [chats_by_date]. *)
Fixpoint select (chats_by_phone : list (str * list chat_summary))
         (all_chats : list chat_summary)
         (chats_by_date : list (str * date_group))
  : list chat_summary * list (str * date_group) :=
  match chats_by_phone with
  | [] => (all_chats, chats_by_date)
  | (_, phone_chats) :: rest =>
      match phone_chats with
      | [] => select rest all_chats chats_by_date
      | first :: others =>
          let best := best_chat first others in
          let date_key := strftime C (lit "%Y-%m-%d") (cs_date best) in
          select rest (all_chats ++ [best])
                 (file_by_date date_key best chats_by_date)
      end
  end.

(** [d.get(key, {}).get('chats', [])] *)
Fixpoint chats_of (date_key : str) (d : list (str * date_group))
  : list chat_summary :=
  match d with
  | [] => []
  | (k, g) :: rest => if eqb k date_key then dg_chats g
                      else chats_of date_key rest
  end.

(** The chats handed to the template as [chats]. *)
Definition listed_chats (target_date : option date)
           (executions : list (str * json)) (tick : nat)
  : list chat_summary :=
  let '(chats_by_phone, _) := collect target_date executions tick [] in
  let '(all_chats, chats_by_date) := select chats_by_phone [] [] in
  match target_date with
  | Some d => chats_of (strftime C (lit "%Y-%m-%d") d) chats_by_date
  | None => all_chats
  end.

(** The summaries the first loop files, in the order of the rows. *)
Fixpoint filed (target_date : option date)
         (executions : list (str * json)) (tick : nat)
  : list chat_summary :=
  match executions with
  | [] => []
  | (execution_id, data) :: rest =>
      match summarize target_date execution_id data tick with
      | (Some (_, summary), tick) => summary :: filed target_date rest tick
      | (None, tick) => filed target_date rest tick
      end
  end.

(** What every filed summary satisfies. *)
Definition listable (target_date : option date) (chat : chat_summary)
  : Prop :=
  cs_has_conversation chat = true
  /\ isdigit R (cs_phone_number chat) = true
  /\ 7 <= len (cs_phone_number chat) <= 15
  /\ 1 <= cs_message_count chat
  /\ forall d, target_date = Some d -> cs_date chat = d.

End Listing.

(* ================================================================== *)
(** ** Notions used in the statements *)
(* ================================================================== *)

(** What [extract_user_info] lets through: a phone number is a string of
    7 to 15 digits, a name has more than 3 characters and is not a string
    of digits. *)
Definition well_formed_info (R : runtime) (ui : user_info) : Prop :=
  (forall p, phone_number ui = Some p ->
             isdigit R p = true /\ 7 <= len p <= 15)
  /\ (forall n, user_name ui = Some n -> len n > 3 /\ isdigit R n = false).


(** The value reached from [v] by the keys [keys], one object deep for
    each; [None] when a key is missing or a value on the way is not an
    object. *)
Fixpoint dict_path (keys : list str) (v : json) : option json :=
  match keys with
  | [] => Some v
  | key :: rest =>
      match v with
      | JObj kvs =>
          match dict_get key kvs with
          | Some v' => dict_path rest v'
          | None => None
          end
      | _ => None
      end
  end.

(** A key that [get_value_at_path] reads as one segment: not empty, and
    free of "." and "[". *)
Definition plain_key (key : str) : bool :=
  negb (eqb key [])
  && forallb (fun c => negb (c =? 46)%N && negb (c =? 91)%N) key.

(** The names [describe_structure] gives to leaves. *)
Definition leaf_names : list str :=
  map lit ["str"; "int"; "float"; "bool"; "NoneType"]%string.

(** A skeleton: objects and lists of at most one element over leaf
    names. *)
Fixpoint is_skeleton (v : json) : bool :=
  match v with
  | JStr s => mem s leaf_names
  | JArr l =>
      match l with
      | [] => true
      | [x] => is_skeleton x
      | _ => false
      end
  | JObj kvs => forallb (fun kv => is_skeleton (snd kv)) kvs
  | _ => false
  end.

(** The strings stored under the key "content" of the objects of a
    value, at any depth. *)
Fixpoint content_strings (v : json) : list str :=
  match v with
  | JObj kvs =>
      match dict_get (lit "content") kvs with
      | Some (JStr c) => [c]
      | _ => []
      end ++ flat_map (fun kv => content_strings (snd kv)) kvs
  | JArr l => flat_map content_strings l
  | _ => []
  end.

(** The elements of a list that are strings. *)
Fixpoint string_elements (l : list json) : list str :=
  match l with
  | [] => []
  | JStr s :: rest => s :: string_elements rest
  | _ :: rest => string_elements rest
  end.

(** Every content collected so far is one of [texts]. *)
Definition drawn_from (texts : list str) (acc : list content_msg) : Prop :=
  Forall (fun m => In (cm_content m) texts) acc.

(** The characters of a decimal index are none of "[", "]" and ".". *)
Definition index_char (c : N) : bool :=
  negb (c =? 91)%N && negb (c =? 93)%N && negb (c =? 46)%N.

(** [inside t v]: the value [t] occurs in [v], at any depth. *)
Inductive inside (t : json) : json -> Prop :=
| inside_here : inside t t
| inside_item (l : list json) (x : json) :
    In x l -> inside t x -> inside t (JArr l)
| inside_value (kvs : list (str * json)) (key : str) (x : json) :
    In (key, x) kvs -> inside t x -> inside t (JObj kvs).

(** The objects of a value, each with the path at which
    [find_content_references] visits it, in the order of the visits. *)
Fixpoint objects_of (v : json) (path : str)
  : list (str * list (str * json)) :=
  match v with
  | JObj kvs =>
      (path, kvs)
      :: extend_each (fun _ '(key, value) =>
                        objects_of value (path_key path key)) kvs 0%nat
  | JArr l =>
      extend_each (fun i item => objects_of item (path_index path i))
                  l 0%nat
  | _ => []
  end.

(** The [if "content" in obj ...] block run on a list of objects in
    turn. *)
Definition visits (R : runtime) (data : json)
           (objs : list (str * list (str * json)))
           (content_messages : list content_msg)
  : result (list content_msg) :=
  for_each (fun _ '(path, obj) acc => visit_content R data obj path acc)
           objs 0%nat content_messages.

(** [content_messages] after a reference [c] found at [path] has been
    resolved to the element [item] of the root. *)
Definition resolved (R : runtime) (path : str) (c : Z)
           (content_messages : list content_msg) (item : json)
  : list content_msg :=
  match item with
  | JStr a =>
      if is_real_conversation_message R a
      then content_messages
           ++ [{| cm_content := a; cm_path := path; cm_ref := Some c |}]
      else content_messages
  | _ => content_messages
  end.

(* ================================================================== *)
(** ** A runtime for the worked examples *)
(* ================================================================== *)

(** The tables of CPython as far as the examples below exercise them.  The
    white space table is the full one of [str.isspace]; digits and letters
    are those of Basic Latin, [lower] covers Basic Latin and Latin-1, and
    [int] reads ASCII digits: the examples are written in these.  [repr]
    is given for [None], [True] and [False] and is empty elsewhere (it
    enters the examples only through the [data_size] of a summary).  The entries [truediv_1000],
    [fromtimestamp] and [strptime] are reached only under a key that
    contains one of [time_keys]; no example has such a key, and they are
    placeholders that raise. *)
Module CPython.

Definition isspace_tbl (c : N) : bool :=
  ((9 <=? c) && (c <=? 13) || (28 <=? c) && (c <=? 32)
   || (c =? 133) || (c =? 160) || (c =? 5760)
   || (8192 <=? c) && (c <=? 8202) || (c =? 8232) || (c =? 8233)
   || (c =? 8239) || (c =? 8287) || (c =? 12288))%N.

Definition isdigit_tbl (c : N) : bool := ((48 <=? c) && (c <=? 57))%N.

Definition isalpha_tbl (c : N) : bool :=
  ((65 <=? c) && (c <=? 90) || (97 <=? c) && (c <=? 122))%N.

Definition isalnum_tbl (c : N) : bool := isdigit_tbl c || isalpha_tbl c.

Definition lower_tbl (c : N) : N :=
  if ((65 <=? c) && (c <=? 90)
      || (192 <=? c) && (c <=? 222) && negb (c =? 215))%N
  then (c + 32)%N else c.

Definition lower_str (s : str) : str := map lower_tbl s.

Fixpoint lstrip_ws (s : str) : str :=
  match s with
  | [] => []
  | c :: s' => if isspace_tbl c then lstrip_ws s' else s
  end.

(** Digits separated by single underscores, most significant first;
    [acc] is the value read so far and [after_digit] tells whether the
    previous character was a digit. *)
Fixpoint digits (s : str) (acc : Z) (after_digit : bool) : option Z :=
  match s with
  | [] => if after_digit then Some acc else None
  | c :: s' =>
      if isdigit_tbl c then digits s' (10 * acc + Z.of_N (c - 48)) true
      else if (c =? 95)%N && after_digit then digits s' acc false
      else None
  end.

Definition int_str (s : str) : option Z :=
  let body := rev (lstrip_ws (rev (lstrip_ws s))) in
  match body with
  | 45%N :: ds => option_map Z.opp (digits ds 0 false)
  | 43%N :: ds => digits ds 0 false
  | _ => digits body 0 false
  end.

Definition repr_json (v : json) : str :=
  match v with
  | JNull => lit "None"
  | JBool true => lit "True"
  | JBool false => lit "False"
  | JStr s => s
  | _ => []
  end.

(** The k-th reading of the wall clock in the examples: one millisecond
    apart, from an arbitrary origin. *)
Definition ticking (k : nat) : datetime := 1700000000000000 + 1000 * Z.of_nat k.

Definition rt : runtime :=
  {| isspace := isspace_tbl;
     isdigit_char := isdigit_tbl;
     isalnum_char := isalnum_tbl;
     lower := lower_str;
     int_of_str := int_str;
     repr := repr_json;
     truediv_1000 := fun _ => Raise OverflowError;
     fromtimestamp := fun _ => Raise OverflowError;
     strptime := fun _ _ => Raise ValueError;
     clock := ticking |}.

(** Dates, for a process whose local time is UTC and a time line that
    starts at 1970-01-01 00:00: the day number of an instant, the civil
    date of a day number, and the two formats the listing uses (years of
    four digits). *)
Definition day_of (t : datetime) : date := t / 86400000000.

Definition civil (days : date) : Z * Z * Z :=
  let z := days + 719468 in
  let era := z / 146097 in
  let doe := z - era * 146097 in
  let yoe := (doe - doe / 1460 + doe / 36524 - doe / 146096) / 365 in
  let doy := doe - (365 * yoe + yoe / 4 - yoe / 100) in
  let mp := (5 * doy + 2) / 153 in
  let d := doy - (153 * mp + 2) / 5 + 1 in
  let m := if mp <? 10 then mp + 3 else mp - 9 in
  let y := yoe + era * 400 + (if m <=? 2 then 1 else 0) in
  (y, m, d).

Definition two_digits (n : Z) : str :=
  (if n <? 10 then lit "0" else []) ++ str_of_nat (Z.to_nat n).

Definition format_date (fmt : str) (days : date) : str :=
  let '(y, m, d) := civil days in
  if eqb fmt (lit "%Y-%m-%d")
  then str_of_nat (Z.to_nat y) ++ lit "-" ++ two_digits m
       ++ lit "-" ++ two_digits d
  else if eqb fmt (lit "%d/%m/%Y")
  then two_digits d ++ lit "/" ++ two_digits m
       ++ lit "/" ++ str_of_nat (Z.to_nat y)
  else fmt.

Definition cal : calendar :=
  {| date_of := day_of; strftime := format_date |}.

(** [datetime.fromtimestamp] of a whole number of seconds, for a process
    whose local time is UTC, instants being counted in microseconds from
    1970-01-01 00:00 as [ticking] and [cal] count them.  Up to the last
    second of the year 9999 the instant is the number of seconds in
    microseconds.  Beyond it no [datetime] exists: CPython raises
    [ValueError] (or [OSError], which [extract_timestamps_from_data]
    catches alike) as long as the number fits the platform's 64-bit
    [time_t], and [OverflowError] when it does not.  The code reaches
    this function only for numbers above 1000000000.  A float is not
    converted by this instance: it raises as in [rt]. *)
Definition fromtimestamp_utc (v : number) : result datetime :=
  match v with
  | NInt z => if z <=? 253402300799 then Ok (z * 1000000)
              else if z <=? 9223372036854775807 then Raise ValueError
              else Raise OverflowError
  | NFloat _ => Raise OverflowError
  end.

(** [rt] with timestamps given in whole seconds recovered. *)
Definition rt_utc : runtime :=
  {| isspace := isspace_tbl;
     isdigit_char := isdigit_tbl;
     isalnum_char := isalnum_tbl;
     lower := lower_str;
     int_of_str := int_str;
     repr := repr_json;
     truediv_1000 := fun _ => Raise OverflowError;
     fromtimestamp := fromtimestamp_utc;
     strptime := fun _ _ => Raise ValueError;
     clock := ticking |}.

End CPython.

(* ================================================================== *)
(** ** Inputs of the worked examples *)
(* ================================================================== *)

Module Examples.

Definition rt : runtime := CPython.rt.

Definition chat_id : str := lit "42".

Definition hola : str := lit "hola".

(** [["HumanMessage", "hola", {"content": "1"}]] *)
Definition reference_log : json :=
  JArr [JStr HumanMessage; JStr hola; JObj [(lit "content", JStr (lit "1"))]].

(** [{"name": "0"}] *)
Definition name_object_log : json :=
  JObj [(lit "name", JStr (lit "0"))].

(** [["HumanMessage", "hola", {"content": "+9999999"}]] *)
Definition plus_log : json :=
  JArr [JStr HumanMessage; JStr hola;
        JObj [(lit "content", JStr (lit "+9999999"))]].

(** [{"content": "hola amigo"}] *)
Definition object_log : json :=
  JObj [(lit "content", JStr (lit "hola amigo"))].

(** [["hola", {"content": "buenos dias"}]] *)
Definition unmarked_log : list json :=
  [JStr hola; JObj [(lit "content", JStr (lit "buenos dias"))]].

(** [["HumanMessage", "prompt_tokens: 5", "hola", {"content": "1"}]] *)
Definition noisy_log : json :=
  JArr [JStr HumanMessage; JStr (lit "prompt_tokens: 5"); JStr hola;
        JObj [(lit "content", JStr (lit "1"))]].

(** The record both [reference_log] and [noisy_log] are reconstructed to
    when the clock stands at its first reading. *)
Definition hola_chat : chat :=
  {| id := chat_id;
     created := CPython.ticking 0 - hours 1;
     updated := CPython.ticking 1;
     messages := [{| sender_of := user; text := hola;
                     timestamp := CPython.ticking 0 - hours 1 |}];
     no_conversation := false;
     status := None;
     chat_user_info := {| phone_number := None; user_name := None |} |}.

Definition zero_scores : scores := {| user_score := 0; bot_score := 0 |}.

(** A content string of [n] letters "a". *)
Definition letters (n : nat) : str := repeat 97%N n.

(** [[{"from": "51987654321", "name": "Maria Lopez"}]] *)
Definition user_log : json :=
  JArr [JObj [(lit "from", JStr (lit "51987654321"));
              (lit "name", JStr (lit "Maria Lopez"))]].


(** [{"a": {"b": "x"}}] *)
Definition nested_object : json :=
  JObj [(lit "a", JObj [(lit "b", JStr (lit "x"))])].

(** [{"a": [1]}] *)
Definition list_under_key : json :=
  JObj [(lit "a", JArr [JNum (NInt 1)])].

(** [[{"messages": "x"}]] *)
Definition messages_row : list json :=
  [JObj [(lit "messages", JStr (lit "x"))]].

(** [["HumanMessage", "hola", {"from": "51987654321"}]] *)
Definition phone_log : json :=
  JArr [JStr HumanMessage; JStr hola;
        JObj [(lit "from", JStr (lit "51987654321"))]].

Definition buenos_dias : str := lit "buenos dias".
Definition gracias : str := lit "gracias".

(** [["HumanMessage", "hola", {"content": "-1"}, "buenos dias"]] *)
Definition end_relative_log : list json :=
  [JStr HumanMessage; JStr hola; JObj [(lit "content", JStr (lit "-1"))];
   JStr buenos_dias].

(** [["HumanMessage", "hola", "AIMessage", "buenos dias", "HumanMessage",
      "gracias", {"at": 2000000000, "date": 2000000000}]] *)
Definition tie_log : json :=
  JArr [JStr HumanMessage; JStr hola; JStr AIMessage; JStr buenos_dias;
        JStr HumanMessage; JStr gracias;
        JObj [(lit "at", JNum (NInt 2000000000));
              (lit "date", JNum (NInt 2000000000))]].

(** The record of [tie_log] under [CPython.rt_utc]: the first two
    messages share the one recovered instant, the third falls back to one
    minute before the clock reading and is sorted to the front. *)
Definition tie_chat : chat :=
  {| id := chat_id;
     created := CPython.ticking 0 - minutes 1;
     updated := CPython.ticking 1;
     messages :=
       [{| sender_of := user; text := gracias;
           timestamp := CPython.ticking 0 - minutes 1 |};
        {| sender_of := user; text := hola;
           timestamp := 2000000000000000 |};
        {| sender_of := bot; text := buenos_dias;
           timestamp := 2000000000000000 |}];
     no_conversation := false;
     status := None;
     chat_user_info := {| phone_number := None; user_name := None |} |}.

(** The messages of [tie_log] in extraction order, with the timestamps
    the loop assigns. *)
Definition tie_merged : list chat_message :=
  [{| sender_of := user; text := hola; timestamp := 2000000000000000 |};
   {| sender_of := bot; text := buenos_dias;
      timestamp := 2000000000000000 |};
   {| sender_of := user; text := gracias;
      timestamp := CPython.ticking 0 - minutes 1 |}].

(** [["HumanMessage", "hola", "AIMessage", "buenos dias",
      {"at": 2000000000, "date": 1900000000, "created": 1950000000}]] *)
Definition recovered_log : json :=
  JArr [JStr HumanMessage; JStr hola; JStr AIMessage; JStr buenos_dias;
        JObj [(lit "at", JNum (NInt 2000000000));
              (lit "date", JNum (NInt 1900000000));
              (lit "created", JNum (NInt 1950000000))]].

(** The instants of [recovered_log] as the walk meets them, and in
    ascending order. *)
Definition recovered_found : list datetime :=
  [2000000000000000; 1900000000000000; 1950000000000000].
Definition recovered_sorted : list datetime :=
  [1900000000000000; 1950000000000000; 2000000000000000].

Definition recovered_conversation : list message :=
  [{| msg_sender := user; msg_text := hola |};
   {| msg_sender := bot; msg_text := buenos_dias |}].

(** The record of [recovered_log] under [CPython.rt_utc]. *)
Definition recovered_chat : chat :=
  {| id := chat_id;
     created := 1900000000000000;
     updated := CPython.ticking 0;
     messages :=
       [{| sender_of := user; text := hola;
           timestamp := 1900000000000000 |};
        {| sender_of := bot; text := buenos_dias;
           timestamp := 1950000000000000 |}];
     no_conversation := false;
     status := None;
     chat_user_info := {| phone_number := None; user_name := None |} |}.

(** [[{"id": 7, "text": "hola"}, {"Message": "buenos dias"}]] *)
Definition found_log : json :=
  JArr [JObj [(lit "id", JNum (NInt 7)); (lit "text", JStr hola)];
        JObj [(lit "Message", JStr buenos_dias)]].

End Examples.

(* ================================================================== *)
(** ** Properties *)
(* ================================================================== *)

(** *** Strings, subscripts and loops *)

Lemma eqb_eq (s t : str) : eqb s t = true <-> s = t.
Proof.
  revert t; induction s as [|a s IH]; destruct t as [|b t]; simpl;
    try (split; congruence).
  rewrite andb_true_iff, N.eqb_eq, IH. split.
  - intros [-> ->]; reflexivity.
  - intros [= -> ->]; auto.
Qed.

Lemma is_marker_spec (item : json) :
  is_marker item = true <->
  item = JStr HumanMessage \/ item = JStr AIMessage.
Proof.
  destruct item; simpl; try (split; [discriminate | intros [H|H]; discriminate]).
  rewrite orb_true_iff, !eqb_eq. split.
  - intros [->| ->]; auto.
  - intros [[= ->]|[= ->]]; auto.
Qed.

(** A subscript on a list either yields an element or raises
    [IndexError], nothing else. *)
Lemma list_getitem_cases {A} (l : list A) (i : Z) :
  (exists x, list_getitem l i = Ok x /\ In x l)
  \/ list_getitem l i = Raise IndexError.
Proof.
  unfold list_getitem.
  destruct (_ || _); auto.
  destruct (nth_error l _) eqn:E; auto.
  left; eexists; split; eauto using nth_error_In.
Qed.

(** A negative subscript within range counts from the end. *)
Lemma list_getitem_negative {A} (l : list A) (c : Z) :
  - Z.of_nat (List.length l) <= c <= -1 ->
  exists x, nth_error l (Z.to_nat (Z.of_nat (List.length l) + c)) = Some x
            /\ list_getitem l c = Ok x.
Proof.
  intros Hc. unfold list_getitem.
  replace (c <? 0) with true by (symmetry; apply Z.ltb_lt; lia).
  replace (c + Z.of_nat (List.length l)) with (Z.of_nat (List.length l) + c)
    by lia.
  replace ((_ <? 0) || _) with false.
  2:{ symmetry. apply orb_false_iff. split;
        [apply Z.ltb_ge | apply Z.leb_gt]; lia. }
  destruct (nth_error l _) eqn:E; eauto.
  apply nth_error_None in E. lia.
Qed.

(** A loop returns when its body does on every element. *)
Lemma for_each_returns {A B} (f : nat -> A -> B -> result B) (l : list A) :
  Forall (fun x => forall i acc, exists acc', f i x acc = Ok acc') l ->
  forall i acc, exists acc', for_each f l i acc = Ok acc'.
Proof.
  induction 1 as [|x l Hx _ IH]; intros i acc; simpl; eauto.
  destruct (Hx i acc) as [acc1 ->]. simpl. apply IH.
Qed.

(** A property of the loop state that every pass of the body keeps holds
    when the loop returns. *)
Lemma for_each_keeps {A B} (P : B -> Prop) (f : nat -> A -> B -> result B)
      (l : list A) :
  Forall (fun x => forall i acc acc', P acc -> f i x acc = Ok acc' -> P acc')
         l ->
  forall i acc acc', P acc -> for_each f l i acc = Ok acc' -> P acc'.
Proof.
  induction 1 as [|x l Hx _ IH]; intros i acc acc' Hacc; simpl.
  - intros [= <-]; exact Hacc.
  - destruct (f i x acc) as [acc1|e] eqn:E; simpl; [|discriminate].
    apply IH. eapply Hx; eauto.
Qed.

Lemma mem_In (x : str) (xs : list str) : mem x xs = true <-> In x xs.
Proof.
  unfold mem. rewrite existsb_exists. split.
  - intros [y [Hy E]]. apply eqb_eq in E. subst. exact Hy.
  - intros H. exists x. split; [exact H | apply eqb_eq; reflexivity].
Qed.


(** The loop combinators, one pass at a time. *)
Lemma for_each_cons {A B} (f : nat -> A -> B -> result B) (x : A)
      (l : list A) (i : nat) (acc : B) :
  for_each f (x :: l) i acc = bind (f i x acc) (for_each f l (S i)).
Proof. reflexivity. Qed.

Lemma extend_each_cons {A B} (f : nat -> A -> list B) (x : A) (l : list A)
      (i : nat) :
  extend_each f (x :: l) i = f i x ++ extend_each f l (S i).
Proof. reflexivity. Qed.

Lemma bind_ext {A B} (c : result A) (k1 k2 : A -> result B) :
  (forall a, k1 a = k2 a) -> bind c k1 = bind c k2.
Proof. intros H. destruct c; simpl; auto. Qed.

Lemma bind_assoc {A B C} (c : result A) (k1 : A -> result B)
      (k2 : B -> result C) :
  bind (bind c k1) k2 = bind c (fun a => bind (k1 a) k2).
Proof. destruct c; reflexivity. Qed.

(** What an extending loop yields comes from one of its passes, the pass
    on the k-th element running with the index [i + k]; and every pass
    contributes. *)
Lemma extend_each_In_elim {A B} (f : nat -> A -> list B) (y : B)
      (l : list A) :
  forall i, In y (extend_each f l i) ->
            exists k x, nth_error l k = Some x /\ In y (f (i + k)%nat x).
Proof.
  induction l as [|x l IH]; intros i; [intros []|].
  rewrite extend_each_cons, in_app_iff. intros [H|H].
  - exists 0%nat, x. rewrite Nat.add_0_r. split; [reflexivity | exact H].
  - destruct (IH _ H) as (k & x' & Hx & Hy).
    exists (S k), x'. rewrite Nat.add_succ_r. split; [exact Hx | exact Hy].
Qed.

Lemma extend_each_In_intro {A B} (f : nat -> A -> list B) (y : B)
      (l : list A) :
  forall k i x,
    nth_error l k = Some x -> In y (f (i + k)%nat x) ->
    In y (extend_each f l i).
Proof.
  induction l as [|x' l IH]; intros [|k] i x; try discriminate;
    rewrite extend_each_cons, in_app_iff.
  - intros [= ->]. rewrite Nat.add_0_r. auto.
  - cbn [nth_error]. rewrite Nat.add_succ_r. intros Hx Hy.
    right. apply (IH k (S i) x Hx). exact Hy.
Qed.

(** [f"{path}[{i}]"] is the same string with or without the test on
    [path]. *)
Lemma path_index_eq (path : str) (i : nat) :
  path_index path i = path ++ lit "[" ++ str_of_nat i ++ lit "]".
Proof. destruct path; reflexivity. Qed.

(** [objects_of] lists the objects that occur in a value, and only
    those. *)
Lemma inside_objects_of (obj : list (str * json)) (v : json) (path : str) :
  inside (JObj obj) v <-> exists p, In (p, obj) (objects_of v path).
Proof.
  split.
  - intros H. revert path.
    induction H as [|l x Hx _ IH|kvs key x Hx _ IH]; intros path.
    + exists path. left. reflexivity.
    + cbn [objects_of].
      destruct (In_nth_error l x Hx) as [k Hk].
      destruct (IH (path_index path (0 + k))) as [p Hp].
      exists p.
      apply (extend_each_In_intro
               (fun i item => objects_of item (path_index path i))
               (p, obj) l k 0%nat x Hk Hp).
    + cbn [objects_of].
      destruct (In_nth_error kvs (key, x) Hx) as [k Hk].
      destruct (IH (path_key path key)) as [p Hp].
      exists p. right.
      apply (extend_each_In_intro
               (fun (_ : nat) '(key, value) =>
                  objects_of value (path_key path key))
               (p, obj) kvs k 0%nat (key, x) Hk Hp).
  - intros [p Hp]. revert path p Hp.
    induction v as [| | |s|l IH|kvs IH] using json_tree_ind;
      intros path p; cbn [objects_of]; try solve [intros []].
    + intros H. apply extend_each_In_elim in H.
      destruct H as (k & x & Hx & Hy). apply nth_error_In in Hx.
      rewrite Forall_forall in IH.
      eapply inside_item; [exact Hx | eapply IH; eauto].
    + intros [H|H].
      * injection H as _ Ho. rewrite Ho. apply inside_here.
      * apply extend_each_In_elim in H.
        destruct H as (k & [key x] & Hx & Hy). apply nth_error_In in Hx.
        rewrite Forall_forall in IH.
        eapply inside_value; [exact Hx|].
        eapply (IH (key, x)); eauto.
Qed.

Section Properties.

Variable R : runtime.

(** *** User information on a sequence root *)

Lemma visit_name_returns_on_list (items : list json) (value : str)
      (st : user_info) :
  exists st', visit_name R (JArr items) value st = Ok st'.
Proof.
  unfold visit_name, py_int.
  destruct (int_of_str R value) as [name_ref|]; simpl.
  2:{ destruct (_ && _); eauto. }
  destruct (name_ref <? _); simpl; eauto.
  destruct (list_getitem_cases items name_ref) as [[x [-> _]]| ->]; simpl.
  - destruct x; simpl; eauto. destruct (_ && _); simpl; eauto.
  - destruct (_ && _); eauto.
Qed.

Lemma visit_item_returns_on_list (items : list json) (key : str)
      (value : json) (st : user_info) :
  exists st', visit_item R (JArr items) key value st = Ok st'.
Proof.
  unfold visit_item. destruct value; eauto.
  destruct (contains (lit "name") _); eauto.
  apply visit_name_returns_on_list.
Qed.

Lemma search_user_info_returns_on_list (items : list json) (obj : json) :
  forall st, exists st', search_user_info R (JArr items) obj st = Ok st'.
Proof.
  induction obj as [| | |s|l IH|kvs IH] using json_tree_ind; intros st;
    simpl; eauto.
  - destruct (_ && _); eauto.
  - apply for_each_returns.
    eapply Forall_impl; [|exact IH]. simpl; intros x Hx _ acc; apply Hx.
  - apply for_each_returns.
    eapply Forall_impl; [|exact IH]. intros [key value] Hx _ acc. simpl in *.
    destruct (visit_item_returns_on_list items key value acc) as [st1 ->].
    simpl. apply Hx.
Qed.

(** On a sequence root [extract_user_info] returns. *)
Lemma extract_user_info_returns_on_list (items : list json) :
  exists ui, extract_user_info R (JArr items) = Ok ui.
Proof. apply search_user_info_returns_on_list. Qed.

(** *** The filter gates every message *)


Lemma clean_no_keyword (t : str) :
  clean R t -> forall kw, In kw technical_keywords -> contains kw t = false.
Proof.
  unfold clean, is_real_conversation_message. intros H kw Hkw.
  destruct (len (strip R t) <? 3); [discriminate|].
  destruct (any_in technical_keywords t) eqn:E; [discriminate|].
  unfold any_in in E.
  destruct (contains kw t) eqn:C; auto.
  assert (existsb (fun p => contains p t) technical_keywords = true)
    by (apply existsb_exists; eauto).
  congruence.
Qed.

Lemma visit_content_keeps (data : json) (obj : list (str * json))
      (path : str) (acc acc' : list content_msg) :
  Forall (fun m => clean R (cm_content m)) acc ->
  visit_content R data obj path acc = Ok acc' ->
  Forall (fun m => clean R (cm_content m)) acc'.
Proof.
  intros Hacc. unfold visit_content.
  destruct (dict_get _ obj) as [[| | |content| |]|];
    try (intros [= <-]; assumption).
  assert (Hlit : (if is_real_conversation_message R content
                  then Ok (acc ++ [{| cm_content := content; cm_path := path;
                                      cm_ref := None |}])
                  else Ok acc) = Ok acc' ->
                 Forall (fun m => clean R (cm_content m)) acc').
  { destruct (is_real_conversation_message R content) eqn:E;
      intros [= <-]; auto.
    apply Forall_app; split; auto. }
  unfold py_int. destruct (int_of_str R content) as [c|]; simpl; auto.
  destruct (py_len data) as [n|e]; simpl;
    [|destruct e; simpl; auto; discriminate].
  destruct (c <? n); simpl; [|intros [= <-]; assumption].
  destruct (py_getitem data c) as [actual|e]; simpl;
    [|destruct e; simpl; auto; discriminate].
  destruct actual as [| | |a| |]; simpl; try (intros [= <-]; assumption).
  destruct (is_real_conversation_message R a) eqn:E; simpl;
    intros [= <-]; auto.
  apply Forall_app; split; auto.
Qed.

Lemma find_content_references_keeps (data obj : json) :
  forall path acc acc',
    Forall (fun m => clean R (cm_content m)) acc ->
    find_content_references R data obj path acc = Ok acc' ->
    Forall (fun m => clean R (cm_content m)) acc'.
Proof.
  induction obj as [| | |s|l IH|kvs IH] using json_tree_ind;
    intros path acc acc' Hacc; simpl; try (intros [= <-]; assumption).
  - apply for_each_keeps; auto.
    eapply Forall_impl; [|exact IH]. simpl. intros x Hx i a a'. apply Hx.
  - destruct (visit_content R data kvs path acc) as [acc1|e] eqn:E; simpl;
      [|discriminate].
    apply for_each_keeps; [|eapply visit_content_keeps; eauto].
    eapply Forall_impl; [|exact IH]. intros [key value] Hx i a a'.
    simpl in *. apply Hx.
Qed.

Lemma unique_messages_keeps (P : content_msg -> Prop)
      (l : list content_msg) :
  Forall P l -> forall seen, Forall P (unique_messages seen l).
Proof.
  induction 1 as [|m l Hm _ IH]; intros seen; simpl; auto.
  destruct (mem (cm_content m) seen); auto.
Qed.

Lemma marker_scan_keeps (n : nat) :
  forall data seen msgs,
    (List.length data <= n)%nat ->
    Forall (fun m => clean R (msg_text m)) msgs ->
    Forall (fun m => clean R (msg_text m)) (marker_scan R data seen msgs).
Proof.
  induction n as [|n IH]; intros data seen msgs Hn Hmsgs.
  - destruct data; [assumption | simpl in Hn; lia].
  - destruct data as [|item rest]; [assumption|]. simpl in Hn.
    assert (Hplain :
              forall s,
                Forall (fun m => clean R (msg_text m))
                  (if is_real_conversation_message R s && negb (mem s seen)
                   then marker_scan R rest (s :: seen)
                          (msgs ++ [{| msg_sender :=
                                         if len s <? 100 then user else bot;
                                       msg_text := s |}])
                   else marker_scan R rest seen msgs)).
    { intros s. destruct (is_real_conversation_message R s) eqn:E; simpl;
        [destruct (negb _)|]; apply IH; auto; try lia.
      apply Forall_app; split; auto. }
    assert (Hpaired :
              forall s who,
                Forall (fun m => clean R (msg_text m))
                  (match rest with
                   | next :: rest' =>
                       if is_real_conversation_message R (py_str R next)
                          && negb (mem (py_str R next) seen)
                       then marker_scan R rest' (py_str R next :: seen)
                              (msgs ++ [{| msg_sender := who;
                                           msg_text := py_str R next |}])
                       else marker_scan R rest' seen msgs
                   | [] =>
                       if is_real_conversation_message R s
                          && negb (mem s seen)
                       then marker_scan R rest (s :: seen)
                              (msgs ++ [{| msg_sender :=
                                             if len s <? 100 then user
                                             else bot;
                                           msg_text := s |}])
                       else marker_scan R rest seen msgs
                   end)).
    { intros s who. destruct rest as [|next rest']; [apply Hplain|].
      simpl in Hn.
      destruct (is_real_conversation_message R (py_str R next)) eqn:E; simpl;
        [destruct (negb _)|]; apply IH; auto; try lia.
      apply Forall_app; split; auto. }
    destruct item as [| | |s| |]; simpl; try (apply IH; auto; lia).
    destruct (eqb s HumanMessage); [apply Hpaired|].
    destruct (eqb s AIMessage); [apply Hpaired|]. apply Hplain.
Qed.

(** *** Conversation extraction returns *)

Lemma visit_content_returns_on_list (items : list json)
      (obj : list (str * json)) (path : str) (acc : list content_msg) :
  exists acc', visit_content R (JArr items) obj path acc = Ok acc'.
Proof.
  unfold visit_content.
  destruct (dict_get _ obj) as [[| | |content| |]|]; eauto.
  unfold py_int. destruct (int_of_str R content) as [c|]; simpl.
  2:{ destruct (is_real_conversation_message R content); eauto. }
  destruct (c <? _); simpl; eauto.
  destruct (list_getitem_cases items c) as [[x [-> _]]| ->]; simpl.
  - destruct x; simpl; eauto.
    destruct (is_real_conversation_message R s); simpl; eauto.
  - destruct (is_real_conversation_message R content); eauto.
Qed.

Lemma find_content_references_returns_on_list (items : list json)
      (obj : json) :
  forall path acc,
  exists acc', find_content_references R (JArr items) obj path acc = Ok acc'.
Proof.
  induction obj as [| | |s|l IH|kvs IH] using json_tree_ind;
    intros path acc; simpl; eauto.
  - apply for_each_returns.
    eapply Forall_impl; [|exact IH]. simpl. intros x Hx i a. apply Hx.
  - destruct (visit_content_returns_on_list items kvs path acc) as [acc1 ->].
    simpl. apply for_each_returns.
    eapply Forall_impl; [|exact IH]. intros [key value] Hx i a. apply Hx.
Qed.

(** [extract_conversation_from_data] returns on every value, and every
    text it returns has passed the filter. *)
Lemma extract_conversation_returns_clean (data : json) :
  exists msgs,
    extract_conversation_from_data R data = Ok msgs
    /\ Forall (fun m => clean R (msg_text m)) msgs.
Proof.
  unfold extract_conversation_from_data.
  destruct data as [| | | |items|]; eauto.
  destruct (negb (existsb is_marker items)); eauto.
  destruct (find_content_references_returns_on_list items (JArr items) [] [])
    as [cms E].
  rewrite E. cbn [bind].
  set (msgs := map _ (unique_messages [] cms)).
  assert (Hmsgs : Forall (fun m => clean R (msg_text m)) msgs).
  { apply Forall_map. simpl. apply unique_messages_keeps.
    eapply find_content_references_keeps; [|exact E]. constructor. }
  destruct msgs as [|m ms]; eexists; split; try reflexivity; auto.
  eapply marker_scan_keeps; [apply Nat.le_refl | constructor].
Qed.

(** *** The stable sort *)

Section Sorting.

Context {A : Type} (key : A -> Z).


Lemma insert_by_perm (x : A) (l : list A) :
  Permutation (x :: l) (insert_by key x l).
Proof.
  induction l as [|y l IH]; simpl; auto.
  destruct (key x <=? key y); auto.
  rewrite perm_swap. auto.
Qed.

Lemma sort_by_perm (l : list A) : Permutation l (sort_by key l).
Proof.
  induction l as [|x l IH]; simpl; auto.
  rewrite <- insert_by_perm. auto.
Qed.

Lemma insert_by_sorted (x : A) (l : list A) :
  StronglySorted (key_le key) l -> StronglySorted (key_le key) (insert_by key x l).
Proof.
  induction 1 as [|y l Hl IH Hy]; simpl.
  - repeat constructor.
  - destruct (key x <=? key y) eqn:E.
    + apply Z.leb_le in E. constructor; [constructor; auto|].
      constructor; auto.
      eapply Forall_impl; [|exact Hy]. unfold key_le. intros; lia.
    + apply Z.leb_gt in E. constructor; auto.
      rewrite <- insert_by_perm. constructor; auto. unfold key_le; lia.
Qed.

Lemma sort_by_sorted (l : list A) : StronglySorted (key_le key) (sort_by key l).
Proof.
  induction l; simpl; [constructor | apply insert_by_sorted; auto].
Qed.

(** Stability: among the elements with one key, the order is that of the
    input. *)
Lemma insert_by_stable (t : Z) (x : A) (l : list A) :
  filter (fun a => key a =? t) (insert_by key x l)
  = filter (fun a => key a =? t) (x :: l).
Proof.
  induction l as [|y l IH]; simpl; auto.
  destruct (key x <=? key y) eqn:E; auto.
  apply Z.leb_gt in E. simpl. rewrite IH. simpl.
  destruct (key x =? t) eqn:Ex, (key y =? t) eqn:Ey; auto.
  apply Z.eqb_eq in Ex, Ey. lia.
Qed.

Lemma sort_by_stable (t : Z) (l : list A) :
  filter (fun a => key a =? t) (sort_by key l)
  = filter (fun a => key a =? t) l.
Proof.
  induction l as [|x l IH]; simpl; auto.
  rewrite insert_by_stable. simpl. rewrite IH. reflexivity.
Qed.

(** A list already in order is left as it is. *)
Lemma sort_by_sorted_id (l : list A) :
  StronglySorted (key_le key) l -> sort_by key l = l.
Proof.
  induction 1 as [|x l Hl IH Hx]; simpl; auto.
  rewrite IH. destruct l as [|y l']; simpl; auto.
  inversion Hx as [|? ? Hxy _]; subst. unfold key_le in Hxy.
  apply Z.leb_le in Hxy. rewrite Hxy. reflexivity.
Qed.

End Sorting.

(** *** Assembling the record *)


Lemma assign_timestamps_untimed (msgs : list message) :
  forall i total ts tick acc,
    map untimed (fst (assign_timestamps R msgs i total ts tick acc))
    = map untimed acc ++ msgs.
Proof.
  induction msgs as [|msg rest IH]; intros i total ts tick acc; simpl.
  - rewrite app_nil_r; reflexivity.
  - destruct (nth_error ts i); rewrite IH, map_app, <- app_assoc; simpl;
      destruct msg; reflexivity.
Qed.


(** What [extract_chat_messages] returns when it returns a record with
    messages: the messages are the conversation in extraction order with
    timestamps attached ([merged]), sorted. *)
Lemma extract_chat_messages_inv (data : json) (chat_id : str)
      (tick tick' : nat) (r : chat) :
  extract_chat_messages R data chat_id tick = Ok (r, tick') ->
  exists conv merged,
    extract_conversation_from_data R data = Ok conv
    /\ map untimed merged = conv
    /\ messages r = sort_by timestamp merged
    /\ (conv = [] -> no_conversation r = true)
    /\ (conv <> [] -> no_conversation r = false)
    /\ (forall m rest, messages r = m :: rest -> created r = timestamp m).
Proof.
  unfold extract_chat_messages.
  destruct (extract_user_info R data) as [ui|e]; simpl; [|discriminate].
  destruct (extract_conversation_from_data R data) as [conv|e]; simpl;
    [|discriminate].
  destruct conv as [|c conv].
  - intros [= <- <-]. exists [], []. simpl.
    repeat split; auto; try congruence.
  - assert (Hne : c :: conv <> []) by discriminate.
    cbv iota. remember (c :: conv) as convl eqn:Hconv.
    destruct (extract_timestamps_from_data R data tick) as [[ts tk]|e];
      cbn [bind]; [|discriminate].
    pose proof (assign_timestamps_untimed convl 0
                  (Z.of_nat (List.length convl)) ts tk []) as Hu.
    destruct (assign_timestamps R convl 0 (Z.of_nat (List.length convl))
                                ts tk []) as [merged tk1].
    simpl in Hu.
    destruct (sort_by timestamp merged) as [|m ms] eqn:Es;
      intros [= <- <-]; exists convl, merged; simpl;
      repeat split; auto; try congruence.
Qed.

(** *** Where the fall-backs end *)

(** On an object root a name that reads as an integer below the number of
    keys makes the subscript raise [KeyError], which is not caught. *)
Lemma visit_name_raises_on_object (kvs : list (str * json)) (value : str)
      (c : Z) (st : user_info) :
  int_of_str R value = Some c ->
  c < Z.of_nat (List.length kvs) ->
  visit_name R (JObj kvs) value st = Raise KeyError.
Proof.
  intros Hint Hc. unfold visit_name, py_int. rewrite Hint. simpl.
  replace (c <? _) with true by (symmetry; apply Z.ltb_lt; exact Hc).
  reflexivity.
Qed.

(** An [OverflowError] of [datetime.fromtimestamp] on a number of
    seconds is not caught either. *)
Lemma probe_timestamp_overflow (v : number) (acc : list datetime) :
  num_gtb_int v 1000000000000 = false ->
  num_gtb_int v 1000000000 = true ->
  fromtimestamp R v = Raise OverflowError ->
  probe_timestamp R (JNum v) acc = Raise OverflowError.
Proof.
  intros Hms Hs Hraise. unfold probe_timestamp. simpl.
  rewrite Hms, Hs, Hraise. reflexivity.
Qed.

(** A content that reads as an integer outside the root sequence: at or
    beyond its length the object contributes nothing; below minus its
    length the subscript raises [IndexError] and the literal is taken. *)
Lemma content_reference_out_of_range (items : list json)
      (obj : list (str * json)) (path content : str) (c : Z)
      (acc : list content_msg) :
  dict_get (lit "content") obj = Some (JStr content) ->
  int_of_str R content = Some c ->
  (Z.of_nat (List.length items) <= c ->
   visit_content R (JArr items) obj path acc = Ok acc)
  /\ (c < - Z.of_nat (List.length items) ->
      visit_content R (JArr items) obj path acc
      = Ok (if is_real_conversation_message R content
            then acc ++ [{| cm_content := content; cm_path := path;
                            cm_ref := None |}]
            else acc)).
Proof.
  intros Hget Hint. unfold visit_content, py_int. rewrite Hget, Hint. simpl.
  split; intros Hc.
  - replace (c <? _) with false by (symmetry; apply Z.ltb_ge; exact Hc).
    reflexivity.
  - replace (c <? _) with true by (symmetry; apply Z.ltb_lt; lia).
    unfold list_getitem.
    replace (c <? 0) with true by (symmetry; apply Z.ltb_lt; lia).
    replace (c + _ <? 0) with true by (symmetry; apply Z.ltb_lt; lia).
    simpl. destruct (is_real_conversation_message R content); reflexivity.
Qed.

(** *** The claims that hold for every runtime *)

(** C5. A root sequence that contains neither the string "HumanMessage"
    nor the string "AIMessage" as an element yields no conversation:
    [extract_conversation_from_data] returns the empty list, and
    [extract_chat_messages] returns the record with an empty message list
    and [no_conversation] set, whatever else the sequence holds. *)
Theorem no_marker_no_conversation (items : list json) (chat_id : str)
        (tick : nat) :
  ~ In (JStr HumanMessage) items ->
  ~ In (JStr AIMessage) items ->
  extract_conversation_from_data R (JArr items) = Ok []
  /\ exists r,
       extract_chat_messages R (JArr items) chat_id tick
       = Ok (r, S (S tick))
       /\ messages r = [] /\ no_conversation r = true.
Proof.
  intros Hh Ha.
  assert (Hm : existsb is_marker items = false).
  { destruct (existsb is_marker items) eqn:E; auto.
    apply existsb_exists in E. destruct E as [x [Hx Hmx]].
    apply is_marker_spec in Hmx. destruct Hmx; subst; contradiction. }
  assert (Hc : extract_conversation_from_data R (JArr items) = Ok []).
  { unfold extract_conversation_from_data. rewrite Hm. reflexivity. }
  split; auto.
  destruct (extract_user_info_returns_on_list items) as [ui Hui].
  exists (empty_chat R chat_id tick ui).
  unfold extract_chat_messages. rewrite Hui, Hc. simpl. auto.
Qed.

(** C6. Every message text of the reconstructed output has passed
    [is_real_conversation_message] and so contains none of the technical
    keywords: this holds for the list [extract_conversation_from_data]
    returns (which it always does) in either phase, and for the messages
    of every record [extract_chat_messages] returns. *)
Theorem noise_exclusion (data : json) (chat_id : str) (tick : nat) :
  (exists conv,
      extract_conversation_from_data R data = Ok conv
      /\ Forall (fun m => is_real_conversation_message R (msg_text m) = true)
                conv)
  /\ forall r tick',
      extract_chat_messages R data chat_id tick = Ok (r, tick') ->
      Forall (fun m =>
                is_real_conversation_message R (text m) = true
                /\ forall kw, In kw technical_keywords ->
                              contains kw (text m) = false)
             (messages r).
Proof.
  destruct (extract_conversation_returns_clean data) as [conv [Hc Hclean]].
  split; [eauto|].
  intros r tick' Hr.
  destruct (extract_chat_messages_inv _ _ _ _ _ Hr)
    as (conv' & merged & Hc' & Hu & Hs & _).
  rewrite Hc in Hc'. injection Hc' as <-. subst conv.
  rewrite Hs. rewrite <- (sort_by_perm timestamp merged).
  rewrite Forall_map in Hclean. simpl in Hclean.
  eapply Forall_impl; [|exact Hclean]. intros m Hm.
  split; [exact Hm | apply clean_no_keyword; exact Hm].
Qed.

(** C7. Whenever the record carries at least one message, its messages
    are in non-decreasing order of timestamp, they are a stable
    rearrangement of the extracted conversation with its timestamps
    attached (messages with equal timestamps keep their extraction order),
    and [created] is the timestamp of the first message. *)
Theorem messages_sorted_by_timestamp (data : json) (chat_id : str)
        (tick tick' : nat) (r : chat) :
  extract_chat_messages R data chat_id tick = Ok (r, tick') ->
  messages r <> [] ->
  StronglySorted (fun a b => timestamp a <= timestamp b) (messages r)
  /\ (exists conv merged,
         extract_conversation_from_data R data = Ok conv
         /\ map untimed merged = conv
         /\ Permutation merged (messages r)
         /\ forall t,
             filter (fun m => timestamp m =? t) (messages r)
             = filter (fun m => timestamp m =? t) merged)
  /\ exists first rest,
      messages r = first :: rest /\ created r = timestamp first.
Proof.
  intros Hr Hne.
  destruct (extract_chat_messages_inv _ _ _ _ _ Hr)
    as (conv & merged & Hc & Hu & Hs & _ & _ & Hcreated).
  split; [|split].
  - rewrite Hs. apply (sort_by_sorted timestamp).
  - exists conv, merged. rewrite Hs.
    repeat split; auto using sort_by_perm, sort_by_stable.
  - destruct (messages r) as [|m ms]; [contradiction|]. eauto.
Qed.

(** C8. When the walk recovers no timestamp, [extract_timestamps_from_data]
    returns exactly ten instants: the first is one hour before the current
    time (the reading of the clock the call makes), each next one is two
    minutes after the one before it, and the list is ascending. *)
Theorem synthesized_timestamps (data : json) (tick : nat) :
  search_for_timestamps R data [] [] = Ok [] ->
  exists ts,
    extract_timestamps_from_data R data tick = Ok (ts, S tick)
    /\ List.length ts = 10%nat
    /\ nth_error ts 0 = Some (clock R tick - hours 1)
    /\ (forall i a b,
          nth_error ts i = Some a -> nth_error ts (S i) = Some b ->
          b = a + minutes 2)
    /\ StronglySorted Z.lt ts.
Proof.
  intros Hnone. unfold extract_timestamps_from_data. rewrite Hnone.
  cbn [bind]. set (base := clock R tick - hours 1).
  assert (Hd : default_timestamps base
               = [base + minutes 0; base + minutes 2; base + minutes 4;
                  base + minutes 6; base + minutes 8; base + minutes 10;
                  base + minutes 12; base + minutes 14; base + minutes 16;
                  base + minutes 18]) by reflexivity.
  rewrite Hd. clear Hd.
  rewrite sort_by_sorted_id.
  2:{ unfold key_le, minutes.
      repeat (constructor; [|repeat (constructor; [lia|]); constructor]).
      constructor. }
  eexists; split; [reflexivity|]. unfold minutes.
  split; [reflexivity|]. split; [simpl; f_equal; lia|]. split.
  - intros i a b.
    do 10 (destruct i as [|i];
           [simpl; intros [= <-] [= <-]; lia|]).
    simpl. destruct i; discriminate.
  - repeat (constructor; [|repeat (constructor; [lia|]); constructor]).
    constructor.
Qed.

(** C9. For a root that is not a sequence neither extraction phase runs:
    [extract_conversation_from_data] returns the empty list, whatever the
    tree holds, and [extract_chat_messages] goes on from the user
    information to the record with an empty message list and
    [no_conversation] set. *)
Theorem non_sequence_root_no_conversation (data : json) (chat_id : str)
        (tick : nat) :
  is_list data = false ->
  extract_conversation_from_data R data = Ok []
  /\ extract_chat_messages R data chat_id tick
     = (ui <- extract_user_info R data ;;
        Ok (empty_chat R chat_id tick ui, S (S tick)))
  /\ forall r tick',
      extract_chat_messages R data chat_id tick = Ok (r, tick') ->
      messages r = [] /\ no_conversation r = true.
Proof.
  intros Hroot.
  assert (Hc : extract_conversation_from_data R data = Ok [])
    by (destruct data; try reflexivity; discriminate).
  assert (He : extract_chat_messages R data chat_id tick
               = (ui <- extract_user_info R data ;;
                  Ok (empty_chat R chat_id tick ui, S (S tick)))).
  { unfold extract_chat_messages. rewrite Hc.
    destruct (extract_user_info R data); reflexivity. }
  split; [exact Hc|]. split; [exact He|].
  intros r tick'. rewrite He.
  destruct (extract_user_info R data) as [ui|e]; simpl; [|discriminate].
  intros [= <- _]. split; reflexivity.
Qed.

(** *** References counted from the end *)

(** The [content] block on one object whose string is a reference counted
    from the end of the root. *)
Lemma visit_content_negative_reference (items : list json)
      (obj : list (str * json)) (path content : str) (c : Z)
      (acc : list content_msg) :
  dict_get (lit "content") obj = Some (JStr content) ->
  int_of_str R content = Some c ->
  - Z.of_nat (List.length items) <= c <= -1 ->
  exists item,
    nth_error items (Z.to_nat (Z.of_nat (List.length items) + c)) = Some item
    /\ visit_content R (JArr items) obj path acc
       = Ok (resolved R path c acc item).
Proof.
  intros Hget Hint Hc.
  destruct (list_getitem_negative items c Hc) as [item [Hnth Hitem]].
  exists item. split; auto.
  unfold visit_content, py_int. rewrite Hget, Hint. simpl.
  replace (c <? _) with true by (symmetry; apply Z.ltb_lt; lia).
  rewrite Hitem. simpl. unfold resolved.
  destruct item; try reflexivity.
  destruct (is_real_conversation_message R s); reflexivity.
Qed.

(** The index of the enumeration plays no part in [visits]. *)
Lemma visits_from (data : json) (objs : list (str * list (str * json))) :
  forall i acc,
    for_each (fun _ '(path, obj) acc => visit_content R data obj path acc)
             objs i acc
    = visits R data objs acc.
Proof.
  unfold visits.
  induction objs as [|[p o] objs IH]; intros i acc; [reflexivity|].
  rewrite !for_each_cons. apply bind_ext. intros a.
  rewrite IH. symmetry. apply IH.
Qed.

Lemma visits_cons (data : json) (p : str) (o : list (str * json))
      (objs : list (str * list (str * json))) (acc : list content_msg) :
  visits R data ((p, o) :: objs) acc
  = bind (visit_content R data o p acc) (visits R data objs).
Proof.
  unfold visits at 1. rewrite for_each_cons.
  apply bind_ext. intros a. apply visits_from.
Qed.

Lemma visits_app (data : json) (l1 l2 : list (str * list (str * json))) :
  forall acc,
    visits R data (l1 ++ l2) acc
    = bind (visits R data l1 acc) (visits R data l2).
Proof.
  induction l1 as [|[p o] l1 IH]; intros acc; [reflexivity|].
  rewrite <- app_comm_cons, !visits_cons, bind_assoc.
  apply bind_ext. intros a. apply IH.
Qed.

(** The walk of [find_content_references] is the [content] block run on
    the objects of the value, one after the other. *)
Lemma find_content_references_as_visits (data obj : json) :
  forall path acc,
    find_content_references R data obj path acc
    = visits R data (objects_of obj path) acc.
Proof.
  induction obj as [| | |s|l IH|kvs IH] using json_tree_ind;
    intros path acc; try reflexivity.
  - cbn [find_content_references objects_of].
    generalize 0%nat. revert acc.
    induction IH as [|x l Hx _ IHl]; intros acc i; [reflexivity|].
    rewrite for_each_cons, extend_each_cons, visits_app, Hx.
    apply bind_ext. intros a. apply IHl.
  - cbn [find_content_references objects_of]. rewrite visits_cons.
    apply bind_ext. intros a.
    generalize 0%nat. revert a.
    induction IH as [|[key value] kvs Hx _ IHl]; intros a i; [reflexivity|].
    rewrite for_each_cons, extend_each_cons, visits_app.
    cbn [snd] in Hx. cbv beta iota. rewrite Hx.
    apply bind_ext. intros a'. apply IHl.
Qed.

Lemma visits_returns_on_list (items : list json)
      (objs : list (str * list (str * json))) (acc : list content_msg) :
  exists acc', visits R (JArr items) objs acc = Ok acc'.
Proof.
  unfold visits. apply for_each_returns.
  apply Forall_forall. intros [p o] _ i a.
  apply visit_content_returns_on_list.
Qed.

(** Nothing collected is ever dropped by a later visit. *)
Lemma visit_content_In (data : json) (obj : list (str * json))
      (path : str) (m : content_msg) (acc acc' : list content_msg) :
  In m acc ->
  visit_content R data obj path acc = Ok acc' ->
  In m acc'.
Proof.
  intros Hacc. unfold visit_content.
  destruct (dict_get _ obj) as [[| | |content| |]|];
    try (intros [= <-]; assumption).
  assert (Hlit : (if is_real_conversation_message R content
                  then Ok (acc ++ [{| cm_content := content; cm_path := path;
                                      cm_ref := None |}])
                  else Ok acc) = Ok acc' -> In m acc').
  { destruct (is_real_conversation_message R content);
      intros [= <-]; auto. apply in_or_app. auto. }
  unfold py_int. destruct (int_of_str R content) as [c|]; simpl; auto.
  destruct (py_len data) as [n|e]; simpl;
    [|destruct e; simpl; auto; discriminate].
  destruct (c <? n); simpl; [|intros [= <-]; assumption].
  destruct (py_getitem data c) as [actual|e]; simpl;
    [|destruct e; simpl; auto; discriminate].
  destruct actual as [| | |a| |]; simpl; try (intros [= <-]; assumption).
  destruct (is_real_conversation_message R a); simpl;
    intros [= <-]; auto.
  apply in_or_app. auto.
Qed.

Lemma visits_In (data : json) (objs : list (str * list (str * json)))
      (m : content_msg) (acc acc' : list content_msg) :
  In m acc -> visits R data objs acc = Ok acc' -> In m acc'.
Proof.
  unfold visits. apply (for_each_keeps (fun a => In m a)).
  apply Forall_forall. intros [p o] _ i a a'. apply visit_content_In.
Qed.

(** The deduplication keeps one entry of every content. *)
Lemma unique_messages_complete (l : list content_msg) :
  forall seen c,
    In c (map cm_content l) ->
    In c seen \/ In c (map cm_content (unique_messages seen l)).
Proof.
  induction l as [|m l IH]; intros seen c; [intros []|].
  cbn [map unique_messages].
  destruct (mem (cm_content m) seen) eqn:E.
  - intros [<-|H]; [left; apply mem_In; exact E | apply IH; exact H].
  - intros [<-|H]; [right; left; reflexivity|].
    destruct (IH (cm_content m :: seen) c H) as [[<-|Hs]|Hu].
    + right. left. reflexivity.
    + left. exact Hs.
    + right. right. exact Hu.
Qed.

(** C10. Over a root sequence of length n, take an object whose [content]
    string parses as an integer c with -n <= c <= -1.  The objects
    [find_content_references] visits are exactly the objects that occur in
    the root.  At every visit of this object, after the objects before it
    have been dealt with, the string is resolved to the root element at
    index n + c: that element is collected, with the reference c, when it
    is a string the filter accepts, and nothing is collected otherwise;
    the string is neither taken literally nor rejected as out of range.
    The walk then goes on with the objects after it, and an element
    collected in this way is in the list the walk returns and among the
    texts of the conversation phase 1 yields. *)
Theorem negative_reference_from_end (items : list json)
        (obj : list (str * json)) (content : str) (c : Z) :
  dict_get (lit "content") obj = Some (JStr content) ->
  int_of_str R content = Some c ->
  - Z.of_nat (List.length items) <= c <= -1 ->
  (inside (JObj obj) (JArr items) <->
   exists path, In (path, obj) (objects_of (JArr items) []))
  /\ forall before path after,
      objects_of (JArr items) [] = before ++ (path, obj) :: after ->
      exists item collected,
        nth_error items (Z.to_nat (Z.of_nat (List.length items) + c))
        = Some item
        /\ visits R (JArr items) before [] = Ok collected
        /\ visit_content R (JArr items) obj path collected
           = Ok (resolved R path c collected item)
        /\ find_content_references R (JArr items) (JArr items) [] []
           = visits R (JArr items) after (resolved R path c collected item)
        /\ forall a,
            item = JStr a ->
            is_real_conversation_message R a = true ->
            (exists content_messages,
                find_content_references R (JArr items) (JArr items) [] []
                = Ok content_messages
                /\ In {| cm_content := a; cm_path := path;
                         cm_ref := Some c |} content_messages)
            /\ (existsb is_marker items = true ->
                exists messages,
                  extract_conversation_from_data R (JArr items)
                  = Ok messages
                  /\ In a (map msg_text messages)).
Proof.
  intros Hget Hint Hc. split.
  { apply inside_objects_of. }
  intros before path after Hsplit.
  destruct (visits_returns_on_list items before []) as [collected Hcol].
  destruct (visit_content_negative_reference
              items obj path content c collected Hget Hint Hc)
    as [item [Hnth Hvisit]].
  exists item, collected.
  split; [exact Hnth|]. split; [exact Hcol|]. split; [exact Hvisit|].
  assert (Hfind : find_content_references R (JArr items) (JArr items) [] []
                  = visits R (JArr items) after
                           (resolved R path c collected item)).
  { rewrite find_content_references_as_visits, Hsplit, visits_app, Hcol.
    cbn [bind]. rewrite visits_cons, Hvisit. reflexivity. }
  split; [exact Hfind|].
  intros a -> Hreal.
  destruct (visits_returns_on_list items after
              (resolved R path c collected (JStr a))) as [cms Hcms].
  assert (Hin : In {| cm_content := a; cm_path := path; cm_ref := Some c |}
                   cms).
  { eapply visits_In; [|exact Hcms].
    unfold resolved. rewrite Hreal. apply in_or_app. right. left.
    reflexivity. }
  split.
  { exists cms. rewrite Hfind. auto. }
  intros Hmark. unfold extract_conversation_from_data.
  rewrite Hmark. cbn [negb]. rewrite Hfind, Hcms. cbn [bind].
  set (msgs := map _ (unique_messages [] cms)).
  assert (Hmsgs : In a (map msg_text msgs)).
  { unfold msgs. rewrite map_map. cbn [msg_text].
    destruct (unique_messages_complete cms [] a) as [[]|Hu]; [|exact Hu].
    apply (in_map cm_content) in Hin. exact Hin. }
  destruct msgs as [|m ms]; [destruct Hmsgs|].
  eexists. split; [reflexivity | exact Hmsgs].
Qed.

End Properties.

(** *** The length bands *)

(** C3, as the code has it. The length of the content adds to one side
    only: 4 to [user_score] below 20, 2 to [user_score] from 20 to 49,
    nothing from 50 to 150, and 3 to [bot_score] from 151 to 300 (the
    first matching branch of the chain decides). *)
Theorem length_band_by_design (content : str) (s : scores) :
  let length := len content in
  (length < 20 -> length_band length s = add_user 4 s)
  /\ (20 <= length <= 49 -> length_band length s = add_user 2 s)
  /\ (50 <= length <= 150 -> length_band length s = s)
  /\ (151 <= length <= 300 -> length_band length s = add_bot 3 s)
  /\ (user_score (length_band length s) = user_score s
      \/ bot_score (length_band length s) = bot_score s).
Proof.
  intros length. unfold length_band.
  destruct (length <? 20) eqn:E1; [apply Z.ltb_lt in E1|apply Z.ltb_ge in E1].
  { repeat split; auto; intros; lia. }
  destruct (length <? 50) eqn:E2; [apply Z.ltb_lt in E2|apply Z.ltb_ge in E2].
  { repeat split; auto; intros; lia. }
  destruct (length >? 150) eqn:E3.
  { apply Z.gtb_lt in E3. repeat split; auto; intros; lia. }
  assert (length <= 150) by (rewrite Z.gtb_ltb in E3; apply Z.ltb_ge in E3; lia).
  replace (length >? 300) with false
    by (symmetry; rewrite Z.gtb_ltb; apply Z.ltb_ge; lia).
  repeat split; auto; intros; lia.
Qed.

Lemma length_band_by_design_witness :
  151 <= len (Examples.letters 200) <= 300
  /\ length_band (len (Examples.letters 200)) Examples.zero_scores
     = add_bot 3 Examples.zero_scores.
Proof.
  split.
  - vm_compute. split; discriminate.
  - apply (length_band_by_design (Examples.letters 200) Examples.zero_scores).
    vm_compute. split; discriminate.
Defined.

(** C3, as the claim words it, fails at two lengths: a content of 150
    characters lies in the claimed band 150-299 and adds nothing to
    [bot_score], and a content of 300 characters adds 3, not 5. *)
Lemma length_band_counterexample :
  (150 <= len (Examples.letters 150) <= 299
   /\ length_band (len (Examples.letters 150)) Examples.zero_scores
      <> add_bot 3 Examples.zero_scores)
  /\ (300 <= len (Examples.letters 300)
      /\ length_band (len (Examples.letters 300)) Examples.zero_scores
         <> add_bot 5 Examples.zero_scores).
Proof.
  repeat split; vm_compute; discriminate.
Qed.

(** *** Worked examples *)

Import Examples.

(** C1 fails at the object root [{"name": "0"}]: the value of the key
    "name" reads as the integer 0, which is below [len(data)] = 1, and
    the subscript [data[0]] on a [dict] raises [KeyError], which the
    [except (ValueError, IndexError)] clause does not catch; no record is
    returned. *)
Theorem object_root_name_reference_raises :
  int_of_str rt (lit "0") = Some 0
  /\ py_len name_object_log = Ok 1
  /\ py_getitem name_object_log 0 = Raise KeyError
  /\ extract_user_info rt name_object_log = Raise KeyError
  /\ extract_chat_messages rt name_object_log chat_id 0 = Raise KeyError.
Proof. repeat split. Qed.

(** C2 fails at [["HumanMessage", "hola", {"content": "+9999999"}]]: the
    content reads as the integer 9999999, beyond the root of length 3; the
    literal passes the filter, yet the object contributes no candidate (no
    exception is raised, so the [except] branch that would take the
    literal is not entered) and the only message is the one of the marker
    scan. *)
Theorem positive_out_of_range_content_dropped :
  int_of_str rt (lit "+9999999") = Some 9999999
  /\ is_real_conversation_message rt (lit "+9999999") = true
  /\ visit_content rt plus_log [(lit "content", JStr (lit "+9999999"))]
                   (lit "[2]") [] = Ok []
  /\ find_content_references rt plus_log plus_log [] [] = Ok []
  /\ extract_conversation_from_data rt plus_log
     = Ok [{| msg_sender := user; msg_text := hola |}].
Proof. repeat split. Qed.

(** C4. For the root [["HumanMessage", "hola", {"content": "1"}]] the
    content "1" is resolved to the element "hola" at index 1; no rule on
    known phrases applies, the marker "HumanMessage" is at distance 1 and
    no "AIMessage" is near, so the proximity rule makes the sender the
    user; the extraction yields exactly that one message,
    and so does the assembled record. *)
Theorem reference_resolution_example :
  find_content_references rt reference_log reference_log [] []
  = Ok [{| cm_content := hola; cm_path := lit "[2]"; cm_ref := Some 1 |}]
  /\ closest (marker_positions HumanMessage
                [JStr HumanMessage; JStr hola;
                 JObj [(lit "content", JStr (lit "1"))]] 0 3) 1 = Some 1
  /\ known_phrases rt hola = None
  /\ proximity rt hola reference_log = Some user
  /\ extract_conversation_from_data rt reference_log
     = Ok [{| msg_sender := user; msg_text := hola |}]
  /\ extract_chat_messages rt reference_log chat_id 0
     = Ok (hola_chat, 2%nat).
Proof. repeat split. Qed.

Lemma no_marker_no_conversation_witness :
  ~ In (JStr HumanMessage) unmarked_log
  /\ ~ In (JStr AIMessage) unmarked_log
  /\ extract_conversation_from_data rt (JArr unmarked_log) = Ok []
  /\ exists r,
      extract_chat_messages rt (JArr unmarked_log) chat_id 0
      = Ok (r, 2%nat)
      /\ messages r = [] /\ no_conversation r = true.
Proof.
  assert (Hh : ~ In (JStr HumanMessage) unmarked_log)
    by (intros [H|[H|[]]]; discriminate H).
  assert (Ha : ~ In (JStr AIMessage) unmarked_log)
    by (intros [H|[H|[]]]; discriminate H).
  split; [exact Hh|]. split; [exact Ha|].
  exact (no_marker_no_conversation rt unmarked_log chat_id 0 Hh Ha).
Defined.

Lemma noise_exclusion_witness :
  extract_chat_messages rt noisy_log chat_id 0 = Ok (hola_chat, 2%nat)
  /\ Forall (fun m =>
               is_real_conversation_message rt (text m) = true
               /\ forall kw, In kw technical_keywords ->
                             contains kw (text m) = false)
            (messages hola_chat).
Proof.
  split; [reflexivity|].
  apply (proj2 (noise_exclusion rt noisy_log chat_id 0) hola_chat 2%nat).
  reflexivity.
Defined.

(** [tie_log] under [CPython.rt_utc]: the conversation is extracted as
    "hola", "buenos dias", "gracias"; the first two get the one recovered
    instant, the third an earlier one from the clock, and the record lists
    "gracias" first and then the two others in extraction order. *)
Lemma messages_sorted_by_timestamp_witness :
  extract_chat_messages CPython.rt_utc tie_log chat_id 0
  = Ok (tie_chat, 2%nat)
  /\ messages tie_chat <> []
  /\ (StronglySorted (fun a b => timestamp a <= timestamp b)
                     (messages tie_chat)
      /\ (exists conv merged,
             extract_conversation_from_data CPython.rt_utc tie_log = Ok conv
             /\ map untimed merged = conv
             /\ Permutation merged (messages tie_chat)
             /\ forall t,
                 filter (fun m => timestamp m =? t) (messages tie_chat)
                 = filter (fun m => timestamp m =? t) merged)
      /\ exists first rest,
          messages tie_chat = first :: rest
          /\ created tie_chat = timestamp first)
  /\ extract_conversation_from_data CPython.rt_utc tie_log
     = Ok (map untimed tie_merged)
  /\ map text tie_merged = [hola; buenos_dias; gracias]
  /\ map timestamp tie_merged
     = [2000000000000000; 2000000000000000; CPython.ticking 0 - minutes 1]
  /\ messages tie_chat = sort_by timestamp tie_merged
  /\ map text (messages tie_chat) = [gracias; hola; buenos_dias]
  /\ map timestamp (messages tie_chat)
     = [CPython.ticking 0 - minutes 1; 2000000000000000; 2000000000000000].
Proof.
  assert (Hr : extract_chat_messages CPython.rt_utc tie_log chat_id 0
               = Ok (tie_chat, 2%nat)) by reflexivity.
  assert (Hne : messages tie_chat <> []) by discriminate.
  split; [exact Hr|]. split; [exact Hne|].
  split; [exact (messages_sorted_by_timestamp CPython.rt_utc tie_log
                   chat_id 0 2%nat tie_chat Hr Hne)|].
  repeat split.
Defined.

Lemma synthesized_timestamps_witness :
  search_for_timestamps rt reference_log [] [] = Ok []
  /\ exists ts,
      extract_timestamps_from_data rt reference_log 0 = Ok (ts, 1%nat)
      /\ List.length ts = 10%nat
      /\ nth_error ts 0 = Some (clock rt 0 - hours 1)
      /\ (forall i a b,
            nth_error ts i = Some a -> nth_error ts (S i) = Some b ->
            b = a + minutes 2)
      /\ StronglySorted Z.lt ts.
Proof.
  split; [reflexivity|].
  apply (synthesized_timestamps rt reference_log 0). reflexivity.
Defined.

Lemma non_sequence_root_no_conversation_witness :
  is_list object_log = false
  /\ is_real_conversation_message rt (lit "hola amigo") = true
  /\ extract_conversation_from_data rt object_log = Ok []
  /\ extract_chat_messages rt object_log chat_id 0
     = Ok (empty_chat rt chat_id 0
             {| phone_number := None; user_name := None |}, 2%nat).
Proof.
  split; [reflexivity|]. split; [reflexivity|].
  destruct (non_sequence_root_no_conversation rt object_log chat_id 0
              eq_refl) as [Hc [He _]].
  split; [exact Hc|]. rewrite He. reflexivity.
Defined.

(** [end_relative_log]: the object at index 2 refers to the last element,
    "buenos dias".  The walk collects it, and the conversation is that one
    message; had the walk collected nothing, the marker scan would have
    given two messages. *)
Lemma negative_reference_from_end_witness :
  dict_get (lit "content") [(lit "content", JStr (lit "-1"))]
  = Some (JStr (lit "-1"))
  /\ int_of_str rt (lit "-1") = Some (-1)
  /\ - Z.of_nat (List.length end_relative_log) <= -1 <= -1
  /\ inside (JObj [(lit "content", JStr (lit "-1"))])
            (JArr end_relative_log)
  /\ objects_of (JArr end_relative_log) []
     = [] ++ (lit "[2]", [(lit "content", JStr (lit "-1"))]) :: []
  /\ nth_error end_relative_log
               (Z.to_nat (Z.of_nat (List.length end_relative_log) + -1))
     = Some (JStr buenos_dias)
  /\ is_real_conversation_message rt buenos_dias = true
  /\ existsb is_marker end_relative_log = true
  /\ visit_content rt (JArr end_relative_log)
                   [(lit "content", JStr (lit "-1"))] (lit "[2]") []
     = Ok [{| cm_content := buenos_dias; cm_path := lit "[2]";
              cm_ref := Some (-1) |}]
  /\ (exists content_messages,
         find_content_references rt (JArr end_relative_log)
                                 (JArr end_relative_log) [] []
         = Ok content_messages
         /\ In {| cm_content := buenos_dias; cm_path := lit "[2]";
                  cm_ref := Some (-1) |} content_messages)
  /\ (exists messages,
         extract_conversation_from_data rt (JArr end_relative_log)
         = Ok messages
         /\ In buenos_dias (map msg_text messages))
  /\ extract_conversation_from_data rt (JArr end_relative_log)
     = Ok [{| msg_sender := user; msg_text := buenos_dias |}]
  /\ marker_scan rt end_relative_log [] []
     = [{| msg_sender := user; msg_text := hola |};
        {| msg_sender := user; msg_text := buenos_dias |}].
Proof.
  split; [reflexivity|]. split; [reflexivity|].
  split; [simpl; lia|].
  destruct (negative_reference_from_end rt end_relative_log
              [(lit "content", JStr (lit "-1"))] (lit "-1") (-1)
              eq_refl eq_refl ltac:(simpl; lia)) as [Hinside H].
  split; [apply Hinside; exists (lit "[2]"); left; reflexivity|].
  split; [reflexivity|].
  destruct (H [] (lit "[2]") [] eq_refl)
    as (item & collected & Hnth & Hcol & Hvisit & _ & Hend).
  split; [reflexivity|]. split; [reflexivity|]. split; [reflexivity|].
  injection Hnth as <-. injection Hcol as <-.
  split; [exact Hvisit|].
  destruct (Hend buenos_dias eq_refl eq_refl) as [Hwalk Hconv].
  split; [exact Hwalk|]. split; [exact (Hconv eq_refl)|].
  split; reflexivity.
Defined.

(* ================================================================== *)
(** ** Further properties of the extractors *)
(* ================================================================== *)

Section UserInfo.

Variable R : runtime.


Lemma is_valid_phone_number_spec (s : str) :
  is_valid_phone_number R s = true ->
  isdigit R s = true /\ 7 <= len s <= 15.
Proof.
  unfold is_valid_phone_number.
  destruct (isdigit R s); simpl; [|discriminate].
  destruct (len s >=? 7) eqn:E1; simpl; [|discriminate].
  destruct (len s <=? 15) eqn:E2; [|discriminate].
  intros _. split; auto.
  rewrite Z.geb_leb in E1. apply Z.leb_le in E1, E2. lia.
Qed.

Lemma set_phone_well_formed (s : str) (st : user_info) :
  is_valid_phone_number R s = true ->
  well_formed_info R st -> well_formed_info R (set_phone s st).
Proof.
  intros Hs [Hp Hn]. split; simpl; auto.
  intros p [= <-]. apply is_valid_phone_number_spec; exact Hs.
Qed.

Lemma set_name_well_formed (n : str) (st : user_info) :
  (len n >? 3) && negb (isdigit R n) = true ->
  well_formed_info R st -> well_formed_info R (set_name n st).
Proof.
  intros Hn [Hp Hnm]. split; simpl; auto.
  intros m [= <-]. apply andb_true_iff in Hn. destruct Hn as [H1 H2].
  apply Z.gtb_lt in H1. apply negb_true_iff in H2. split; [lia | exact H2].
Qed.

Lemma visit_name_well_formed (data : json) (value : str)
      (st st' : user_info) :
  well_formed_info R st ->
  visit_name R data value st = Ok st' -> well_formed_info R st'.
Proof.
  intros Hst. unfold visit_name.
  assert (Hlit : (if (len value >? 3) && negb (isdigit R value)
                  then Ok (set_name value st) else Ok st) = Ok st' ->
                 well_formed_info R st').
  { destruct (_ && _) eqn:E; intros [= <-]; auto.
    apply set_name_well_formed; auto. }
  unfold py_int. destruct (int_of_str R value) as [c|]; simpl; auto.
  destruct (py_len data) as [n|e]; simpl;
    [|destruct e; simpl; auto; discriminate].
  destruct (c <? n); simpl; [|intros [= <-]; assumption].
  destruct (py_getitem data c) as [item|e]; simpl;
    [|destruct e; simpl; auto; discriminate].
  destruct item as [| | |a| |]; simpl; try (intros [= <-]; assumption).
  destruct ((len a >? 3) && negb (isdigit R a)) eqn:E; simpl;
    intros [= <-]; auto.
  apply set_name_well_formed; auto.
Qed.

Lemma visit_item_well_formed (data : json) (key : str) (value : json)
      (st st' : user_info) :
  well_formed_info R st ->
  visit_item R data key value st = Ok st' -> well_formed_info R st'.
Proof.
  intros Hst. unfold visit_item.
  destruct value as [| | |v| |]; try (intros [= <-]; assumption).
  assert (H1 : well_formed_info R
                 (if contains (lit "from") (lower R key)
                     && is_valid_phone_number R v
                  then set_phone v st else st)).
  { destruct (contains (lit "from") (lower R key)); simpl; auto.
    destruct (is_valid_phone_number R v) eqn:E; auto.
    apply set_phone_well_formed; auto. }
  destruct (contains (lit "name") (lower R key)).
  - apply visit_name_well_formed; exact H1.
  - intros [= <-]; exact H1.
Qed.

Lemma search_user_info_well_formed (data obj : json) :
  forall st st',
    well_formed_info R st ->
    search_user_info R data obj st = Ok st' -> well_formed_info R st'.
Proof.
  induction obj as [| | |s|l IH|kvs IH] using json_tree_ind;
    intros st st' Hst; simpl; try (intros [= <-]; assumption).
  - destruct (is_valid_phone_number R s) eqn:E; simpl;
      [destruct (falsy (phone_number st))|]; intros [= <-]; auto.
    apply set_phone_well_formed; auto.
  - apply for_each_keeps; auto.
    eapply Forall_impl; [|exact IH]. simpl. intros x Hx i a a'. apply Hx.
  - apply for_each_keeps; auto.
    eapply Forall_impl; [|exact IH]. intros [key value] Hx i a a' Ha.
    simpl in *.
    destruct (visit_item R data key value a) as [a1|e] eqn:E; simpl;
      [|discriminate].
    apply Hx. eapply visit_item_well_formed; eauto.
Qed.

Lemma extract_user_info_well_formed_holds (data : json) (ui : user_info) :
  extract_user_info R data = Ok ui ->
  (forall p, phone_number ui = Some p ->
             isdigit R p = true /\ 7 <= len p <= 15)
  /\ (forall n, user_name ui = Some n -> len n > 3 /\ isdigit R n = false).
Proof.
  intros H. eapply search_user_info_well_formed; [|exact H].
  split; simpl; discriminate.
Qed.

(** X1. Whatever [extract_user_info] returns is well formed: the phone
    number, when there is one, consists of 7 to 15 digits, and the name,
    when there is one, has more than 3 characters and is not a string of
    digits. *)
Theorem extract_user_info_well_formed (data : json) (ui : user_info) :
  extract_user_info R data = Ok ui ->
  (forall p, phone_number ui = Some p ->
             isdigit R p = true /\ 7 <= len p <= 15)
  /\ (forall n, user_name ui = Some n -> len n > 3 /\ isdigit R n = false).
Proof. exact (extract_user_info_well_formed_holds data ui). Qed.

End UserInfo.

Section Conversation.

Variable R : runtime.

(** *** No text twice *)






End Conversation.

Section Assembly.

Variable R : runtime.

(** *** The timestamps handed to the assembler *)

Lemma timestamps_nonempty_sorted_holds (data : json) (tick tick' : nat)
        (ts : list datetime) :
  extract_timestamps_from_data R data tick = Ok (ts, tick') ->
  ts <> []
  /\ StronglySorted Z.le ts
  /\ exists found,
      search_for_timestamps R data [] [] = Ok found
      /\ (found <> [] -> Permutation found ts /\ tick' = tick).
Proof.
  unfold extract_timestamps_from_data.
  destruct (search_for_timestamps R data [] []) as [found|e]; cbn [bind];
    [|discriminate].
  assert (Hsorted : forall l, StronglySorted Z.le (sort_by (fun t => t) l))
    by (intros l; exact (sort_by_sorted (fun t => t) l)).
  assert (Hne : forall l : list datetime,
             l <> [] -> sort_by (fun t => t) l <> []).
  { intros l Hl E. apply Hl.
    pose proof (sort_by_perm (fun t => t) l) as P. rewrite E in P.
    apply Permutation_nil. symmetry. exact P. }
  destruct found as [|t found].
  - assert (Hd : default_timestamps (clock R tick - hours 1) <> [])
      by (cbv - [Z.add Z.sub Z.mul clock]; discriminate).
    remember (default_timestamps (clock R tick - hours 1)) as l eqn:Hl.
    clear Hl. intros H. injection H as <- <-.
    split; [apply Hne; exact Hd|]. split; [apply Hsorted|].
    exists []. split; [reflexivity | intros H; contradiction].
  - assert (Hd : t :: found <> []) by discriminate.
    remember (t :: found) as l eqn:Hl. clear Hl.
    intros H. injection H as <- <-.
    split; [apply Hne; exact Hd|]. split; [apply Hsorted|].
    exists l. split; [reflexivity|]. intros _.
    split; [apply sort_by_perm | reflexivity].
Qed.

(** X3. The list [extract_timestamps_from_data] returns is never empty and
    is in ascending order; when the walk recovers timestamps it is a
    rearrangement of exactly those, and the clock is not read. *)
Theorem timestamps_nonempty_sorted (data : json) (tick tick' : nat)
        (ts : list datetime) :
  extract_timestamps_from_data R data tick = Ok (ts, tick') ->
  ts <> []
  /\ StronglySorted Z.le ts
  /\ exists found,
      search_for_timestamps R data [] [] = Ok found
      /\ (found <> [] -> Permutation found ts /\ tick' = tick).
Proof. exact (timestamps_nonempty_sorted_holds data tick tick' ts). Qed.

(** *** What the record holds *)

Lemma extract_chat_messages_cases (data : json) (chat_id : str)
      (tick tick' : nat) (r : chat) :
  extract_chat_messages R data chat_id tick = Ok (r, tick') ->
  exists ui conv,
    extract_user_info R data = Ok ui
    /\ extract_conversation_from_data R data = Ok conv
    /\ id r = chat_id
    /\ chat_user_info r = ui
    /\ ((conv = [] /\ r = empty_chat R chat_id tick ui)
        \/ (conv <> []
            /\ no_conversation r = false /\ status r = None
            /\ exists ts tk merged tk1,
                extract_timestamps_from_data R data tick = Ok (ts, tk)
                /\ assign_timestamps R conv 0 (Z.of_nat (List.length conv))
                                     ts tk [] = (merged, tk1)
                /\ messages r = sort_by timestamp merged)).
Proof.
  unfold extract_chat_messages.
  destruct (extract_user_info R data) as [ui|e]; simpl; [|discriminate].
  destruct (extract_conversation_from_data R data) as [conv|e]; simpl;
    [|discriminate].
  destruct conv as [|c conv].
  - intros [= <- <-]. exists ui, []. repeat split; auto.
  - assert (Hne : c :: conv <> []) by discriminate.
    cbv iota. remember (c :: conv) as convl eqn:Hconv.
    destruct (extract_timestamps_from_data R data tick) as [[ts tk]|e];
      cbn [bind]; [|discriminate].
    destruct (assign_timestamps R convl 0 (Z.of_nat (List.length convl))
                                ts tk []) as [merged tk1] eqn:Ea.
    destruct (sort_by timestamp merged) as [|m ms] eqn:Es;
      intros [= <- <-]; exists ui, convl; simpl;
      repeat split; auto; right; repeat split; auto;
      exists ts, tk, merged, tk1; rewrite Es; auto.
Qed.

Lemma record_invariants_holds (data : json) (chat_id : str) (tick tick' : nat)
        (r : chat) :
  extract_chat_messages R data chat_id tick = Ok (r, tick') ->
  id r = chat_id
  /\ (no_conversation r = true <-> messages r = [])
  /\ (status r = Some status_no_conversation <-> messages r = [])
  /\ extract_user_info R data = Ok (chat_user_info r)
  /\ exists conv,
      extract_conversation_from_data R data = Ok conv
      /\ List.length (messages r) = List.length conv.
Proof.
  intros Hr.
  destruct (extract_chat_messages_cases _ _ _ _ _ Hr)
    as (ui & conv & Hui & Hc & Hid & Hinfo & Hcases).
  subst ui.
  destruct Hcases as [[-> ->]|(Hne & Hflag & Hstatus & ts & tk & merged
                                 & tk1 & _ & Ha & Hm)].
  - simpl. repeat split; auto. exists []. auto.
  - pose proof (assign_timestamps_untimed R conv 0
                  (Z.of_nat (List.length conv)) ts tk []) as Hu.
    rewrite Ha in Hu. simpl in Hu.
    assert (Hlen : List.length (messages r) = List.length conv).
    { rewrite Hm, <- (Permutation_length (sort_by_perm timestamp merged)).
      rewrite <- (length_map untimed merged), Hu. reflexivity. }
    assert (Hmne : messages r <> []).
    { intros E. rewrite E in Hlen. destruct conv; [contradiction|].
      discriminate. }
    rewrite Hflag, Hstatus.
    repeat split; auto; try discriminate; try contradiction.
    exists conv. auto.
Qed.

(** X4. A record is flagged [no_conversation] exactly when its message
    list is empty; it carries the identifier it was asked for, the user
    information of [extract_user_info], one message for each message of
    the extracted conversation, and the status text exactly when it has no
    conversation. *)
Theorem record_invariants (data : json) (chat_id : str) (tick tick' : nat)
        (r : chat) :
  extract_chat_messages R data chat_id tick = Ok (r, tick') ->
  id r = chat_id
  /\ (no_conversation r = true <-> messages r = [])
  /\ (status r = Some status_no_conversation <-> messages r = [])
  /\ extract_user_info R data = Ok (chat_user_info r)
  /\ exists conv,
      extract_conversation_from_data R data = Ok conv
      /\ List.length (messages r) = List.length conv.
Proof. exact (record_invariants_holds data chat_id tick tick' r). Qed.

(** *** Enough timestamps keep the extraction order *)

Lemma skipn_nth_error {A : Type} (l : list A) :
  forall i x, nth_error l i = Some x -> skipn i l = x :: skipn (S i) l.
Proof.
  induction l as [|y l IH]; intros [|i] x; simpl; try discriminate.
  - intros [= ->]. reflexivity.
  - intros H. rewrite (IH i x H). reflexivity.
Qed.

Lemma assign_timestamps_enough (ts : list datetime) (total : Z)
      (tick : nat) (msgs : list message) :
  forall i acc,
    (List.length msgs + i <= List.length ts)%nat ->
    assign_timestamps R msgs i total ts tick acc
    = (acc ++ map (fun '(msg, t) =>
                     {| sender_of := msg_sender msg; text := msg_text msg;
                        timestamp := t |})
                  (combine msgs (skipn i ts)), tick).
Proof.
  induction msgs as [|msg rest IH]; intros i acc Hlen.
  - simpl. rewrite app_nil_r. reflexivity.
  - simpl in Hlen. cbn [assign_timestamps].
    destruct (nth_error ts i) as [t|] eqn:E.
    2:{ apply nth_error_None in E. lia. }
    rewrite IH by lia. rewrite <- app_assoc.
    rewrite (skipn_nth_error ts i t E). reflexivity.
Qed.

Lemma combine_untimed (msgs : list message) :
  forall ts,
    (List.length msgs <= List.length ts)%nat ->
    map untimed
        (map (fun '(msg, t) =>
                {| sender_of := msg_sender msg; text := msg_text msg;
                   timestamp := t |})
             (combine msgs ts)) = msgs
    /\ map timestamp
           (map (fun '(msg, t) =>
                   {| sender_of := msg_sender msg; text := msg_text msg;
                      timestamp := t |})
                (combine msgs ts)) = firstn (List.length msgs) ts.
Proof.
  induction msgs as [|[who t] rest IH]; intros ts Hlen; simpl; auto.
  destruct ts as [|t0 ts]; simpl in *; [lia|].
  destruct (IH ts) as [H1 H2]; [lia|].
  rewrite H1, H2. auto.
Qed.

Lemma sorted_firstn (n : nat) (l : list Z) :
  StronglySorted Z.le l -> StronglySorted Z.le (firstn n l).
Proof.
  intros H. revert n. induction H as [|x l Hl IH Hx]; intros n.
  - rewrite firstn_nil. constructor.
  - destruct n; simpl; constructor; auto.
    rewrite Forall_forall in *. intros y Hy. apply Hx.
    rewrite <- (firstn_skipn n l). apply in_or_app. left; exact Hy.
Qed.

Lemma sorted_by_key {A : Type} (key : A -> Z) (l : list A) :
  StronglySorted Z.le (map key l) -> StronglySorted (key_le key) l.
Proof.
  induction l as [|x l IH]; simpl; intros H; [constructor|].
  inversion H as [|? ? Hl Hx]; subst. constructor; auto.
  rewrite Forall_map in Hx. exact Hx.
Qed.

(** X5. When there are at least as many timestamps as extracted messages
    (as always when none is recovered and the conversation has at most ten
    messages), the record lists the messages in extraction order, the i-th
    one carrying the i-th timestamp; the loop does not read the clock. *)
Theorem enough_timestamps_keep_order (data : json) (chat_id : str)
        (tick tick' tk : nat) (r : chat) (conv : list message)
        (ts : list datetime) :
  extract_chat_messages R data chat_id tick = Ok (r, tick') ->
  extract_conversation_from_data R data = Ok conv ->
  extract_timestamps_from_data R data tick = Ok (ts, tk) ->
  (List.length conv <= List.length ts)%nat ->
  map untimed (messages r) = conv
  /\ map timestamp (messages r) = firstn (List.length conv) ts.
Proof.
  intros Hr Hc Hts Hlen.
  destruct (extract_chat_messages_cases _ _ _ _ _ Hr)
    as (ui & conv' & _ & Hc' & _ & _ & Hcases).
  rewrite Hc in Hc'. injection Hc' as <-.
  destruct Hcases as [[-> ->]|(_ & _ & _ & ts' & tk' & merged & tk1
                                 & Hts' & Ha & Hm)]; [auto|].
  rewrite Hts in Hts'. injection Hts' as <- <-.
  rewrite assign_timestamps_enough in Ha by (rewrite Nat.add_0_r; exact Hlen).
  cbn [app skipn] in Ha. injection Ha as <- _.
  destruct (combine_untimed conv ts Hlen) as [Hu Ht].
  rewrite Hm, sort_by_sorted_id; [auto|].
  apply sorted_by_key. unfold datetime in *. rewrite Ht. apply sorted_firstn.
  apply (timestamps_nonempty_sorted_holds _ _ _ _ Hts).
Qed.

End Assembly.

(* ================================================================== *)
(** ** The preview and the debugging helpers *)
(* ================================================================== *)

Lemma startswith_app (p s : str) : startswith p (p ++ s) = true.
Proof.
  induction p as [|a p IH]; simpl; auto. rewrite N.eqb_refl. exact IH.
Qed.

Lemma endswith_app (p s : str) : endswith p (s ++ p) = true.
Proof. unfold endswith. rewrite rev_app_distr. apply startswith_app. Qed.

Lemma extend_each_Forall {A B : Type} (P : B -> Prop)
      (f : nat -> A -> list B) (l : list A) :
  Forall (fun x => forall i, Forall P (f i x)) l ->
  forall i, Forall P (extend_each f l i).
Proof.
  induction 1 as [|x l Hx _ IH]; intros i; simpl; [constructor|].
  apply Forall_app. split; [apply Hx | apply IH].
Qed.

Section Presentation.

Variable R : runtime.

(** *** [get_chat_preview] *)

(** X6. A preview never has more than 102 characters: the sender label, a
    space, and at most 100 characters of text, the last three of them
    dots when the text was cut. *)
Theorem preview_is_short (chat_data : chat) :
  len (get_chat_preview chat_data) <= 102.
Proof.
  unfold get_chat_preview, len.
  destruct (messages chat_data) as [|m ms].
  { destruct (no_conversation chat_data); vm_compute; discriminate. }
  assert (Hcut : (List.length
                    (if Z.of_nat (List.length (text m)) >? 100
                     then firstn 97 (text m) ++ lit "..."
                     else text m) <= 100)%nat).
  { destruct (Z.of_nat (List.length (text m)) >? 100) eqn:E.
    - rewrite length_app, length_firstn.
      change (List.length (lit "...")) with 3%nat. lia.
    - rewrite Z.gtb_ltb in E. apply Z.ltb_ge in E. lia. }
  set (cut := if Z.of_nat (List.length (text m)) >? 100 then _ else _) in *.
  destruct (sender_of m);
    change (Z.of_nat (S (S (List.length cut))) <= 102); lia.
Qed.

(** X7. For a record [extract_chat_messages] returns, the preview is "Sin
    conversación" exactly when the record has no message, and it is never
    "Sin mensajes": a record without messages is always flagged
    [no_conversation]. *)
Theorem preview_of_extracted_record (data : json) (chat_id : str)
        (tick tick' : nat) (r : chat) :
  extract_chat_messages R data chat_id tick = Ok (r, tick') ->
  (get_chat_preview r = preview_no_conversation <-> messages r = [])
  /\ get_chat_preview r <> preview_no_messages.
Proof.
  intros Hr.
  destruct (record_invariants_holds _ _ _ _ _ _ Hr) as (_ & Hflag & _).
  unfold get_chat_preview.
  destruct (messages r) as [|m ms].
  - rewrite (proj2 Hflag eq_refl). split; [tauto | discriminate].
  - split; [split; [|discriminate] | ]; destruct (sender_of m); discriminate.
Qed.

(** *** [find_messages_in_data] *)

Lemma found_messages_sound (data : json) :
  forall path fm,
    In fm (find_messages_in_data R data path) ->
    exists p kvs key value,
      In (p, kvs) (objects_of data path)
      /\ In (key, value) kvs
      /\ (contains (lit "message") (lower R key)
          || contains (lit "text") (lower R key)) = true
      /\ fm = {| fm_path := path_key p key;
                 fm_value := firstn 100 (py_str R value) ++ lit "..." |}.
Proof.
  induction data as [| | |s|l IH|kvs IH] using json_tree_ind;
    intros path fm; cbn [find_messages_in_data objects_of];
    try solve [intros []].
  - intros H. apply extend_each_In_elim in H.
    destruct H as (k & x & Hx & Hy). cbv beta in Hy.
    rewrite Forall_forall in IH.
    destruct (IH x (nth_error_In _ _ Hx) _ _ Hy)
      as (p & kvs & key & value & Hobj & Hrest).
    exists p, kvs, key, value. split; [|exact Hrest].
    apply (extend_each_In_intro
             (fun i item => objects_of item (path_index path i))
             (p, kvs) l k 0%nat x Hx).
    rewrite path_index_eq. exact Hobj.
  - intros H. apply extend_each_In_elim in H.
    destruct H as (k & [key value] & Hx & Hy). cbv beta iota in Hy.
    apply in_app_or in Hy. destruct Hy as [Hy|Hy].
    + destruct (contains (lit "message") (lower R key)
                || contains (lit "text") (lower R key)) eqn:E;
        [|destruct Hy].
      destruct Hy as [<-|[]].
      exists path, kvs, key, value.
      split; [left; reflexivity|].
      split; [exact (nth_error_In _ _ Hx)|]. split; [exact E|reflexivity].
    + rewrite Forall_forall in IH.
      destruct (IH (key, value) (nth_error_In _ _ Hx) _ _ Hy)
        as (p' & kvs' & key' & value' & Hobj & Hrest).
      exists p', kvs', key', value'. split; [|exact Hrest].
      right.
      apply (extend_each_In_intro
               (fun (_ : nat) '(key, value) =>
                  objects_of value (path_key path key))
               (p', kvs') kvs k 0%nat (key, value) Hx Hobj).
Qed.

Lemma found_messages_complete (data : json) :
  forall path p kvs key value,
    In (p, kvs) (objects_of data path) ->
    In (key, value) kvs ->
    (contains (lit "message") (lower R key)
     || contains (lit "text") (lower R key)) = true ->
    In {| fm_path := path_key p key;
          fm_value := firstn 100 (py_str R value) ++ lit "..." |}
       (find_messages_in_data R data path).
Proof.
  induction data as [| | |s|l IH|kvs IH] using json_tree_ind;
    intros path p kvs0 key0 value0;
    cbn [find_messages_in_data objects_of]; try solve [intros []].
  - intros Hobj Hkv E. apply extend_each_In_elim in Hobj.
    destruct Hobj as (k & x & Hx & Hy). cbv beta in Hy.
    rewrite Forall_forall in IH.
    eapply extend_each_In_intro; [exact Hx|]. cbv beta.
    rewrite <- path_index_eq.
    exact (IH x (nth_error_In _ _ Hx) _ _ _ _ _ Hy Hkv E).
  - intros [Hobj|Hobj] Hkv E.
    + injection Hobj as <- <-.
      destruct (In_nth_error kvs (key0, value0) Hkv) as [k Hk].
      eapply extend_each_In_intro; [exact Hk|]. cbv beta iota.
      apply in_or_app. left. rewrite E. left. reflexivity.
    + apply extend_each_In_elim in Hobj.
      destruct Hobj as (k & [key value] & Hx & Hy). cbv beta iota in Hy.
      rewrite Forall_forall in IH.
      eapply extend_each_In_intro; [exact Hx|]. cbv beta iota.
      apply in_or_app. right.
      exact (IH (key, value) (nth_error_In _ _ Hx) _ _ _ _ _ Hy Hkv E).
Qed.

(** X8. The entries [find_messages_in_data] reports are exactly those of
    the keys containing "message" or "text" (in lower case) in the objects
    that occur in the data.  Every entry comes from such a key of such an
    object: its path is the path at which the walk reaches the object
    extended by the key, so it ends in the key, and its value is the first
    100 characters of the value under the key followed by "...", at most
    103 characters.  And every such key of every object reached is
    reported. *)
Theorem found_messages_shape (data : json) (path : str) :
  Forall (fun fm =>
            exists p kvs key value,
              inside (JObj kvs) data
              /\ In (p, kvs) (objects_of data path)
              /\ In (key, value) kvs
              /\ (contains (lit "message") (lower R key)
                  || contains (lit "text") (lower R key)) = true
              /\ fm_path fm = path_key p key
              /\ endswith key (fm_path fm) = true
              /\ fm_value fm = firstn 100 (py_str R value) ++ lit "..."
              /\ endswith (lit "...") (fm_value fm) = true
              /\ len (fm_value fm) <= 103)
         (find_messages_in_data R data path)
  /\ forall p kvs key value,
      In (p, kvs) (objects_of data path) ->
      In (key, value) kvs ->
      (contains (lit "message") (lower R key)
       || contains (lit "text") (lower R key)) = true ->
      In {| fm_path := path_key p key;
            fm_value := firstn 100 (py_str R value) ++ lit "..." |}
         (find_messages_in_data R data path).
Proof.
  split; [|apply found_messages_complete].
  apply Forall_forall. intros fm Hfm.
  destruct (found_messages_sound data path fm Hfm)
    as (p & kvs & key & value & Hobj & Hkv & E & ->).
  exists p, kvs, key, value. cbn [fm_path fm_value].
  split; [apply (inside_objects_of kvs data path); eauto|].
  split; [exact Hobj|]. split; [exact Hkv|]. split; [exact E|].
  split; [reflexivity|]. split; [|split; [reflexivity|split]].
  - unfold path_key. destruct p as [|c p'].
    + apply (endswith_app key []).
    + rewrite app_assoc. apply endswith_app.
  - apply endswith_app.
  - unfold len. rewrite length_app, length_firstn.
    change (List.length (lit "...")) with 3%nat. lia.
Qed.

(** *** [describe_structure] *)

(** X9. [describe_structure] returns a skeleton of the value: every list
    in it has at most one element and every leaf is one of the type names
    "str", "int", "float", "bool", "NoneType"; an object keeps its keys in
    their order. *)
Theorem describe_structure_skeleton (data : json) :
  is_skeleton (describe_structure data) = true
  /\ forall kvs,
      data = JObj kvs ->
      exists kvs',
        describe_structure data = JObj kvs' /\ map fst kvs' = map fst kvs.
Proof.
  split.
  - induction data as [| | |s|l IH|kvs IH] using json_tree_ind;
      try reflexivity.
    + destruct n; reflexivity.
    + simpl. destruct l as [|first rest]; [reflexivity|]. simpl.
      inversion IH; assumption.
    + simpl. apply forallb_forall. rewrite Forall_forall in IH.
      intros [k d] Hin. apply in_map_iff in Hin.
      destruct Hin as [[key value] [E Hin]]. injection E as <- <-.
      exact (IH _ Hin).
  - intros kvs ->. simpl. eexists; split; [reflexivity|].
    rewrite map_map. apply map_ext. intros [key value]; reflexivity.
Qed.

(** X10. Describing a description once more changes nothing after the
    first time: the description of a skeleton with all leaves "str" is
    itself. *)
Theorem describe_structure_settles (data : json) :
  describe_structure (describe_structure (describe_structure data))
  = describe_structure (describe_structure data).
Proof.
  induction data as [| | |s|l IH|kvs IH] using json_tree_ind;
    try reflexivity.
  - simpl. destruct l as [|first rest]; [reflexivity|]. simpl.
    inversion IH as [|? ? Hfirst _]; subst. rewrite Hfirst. reflexivity.
  - simpl. rewrite !map_map. f_equal. apply map_ext_Forall.
    eapply Forall_impl; [|exact IH]. intros [key value] H. simpl in *.
    rewrite H. reflexivity.
Qed.

End Presentation.

(* ================================================================== *)
(** ** Paths: [get_value_at_path] against the walkers *)
(* ================================================================== *)


Lemma str_of_uint_index_chars (d : Decimal.uint) :
  forallb index_char (lit (NilEmpty.string_of_uint d)) = true.
Proof. induction d; simpl; auto. Qed.

Lemma str_of_nat_index_chars (i : nat) :
  forallb index_char (str_of_nat i) = true.
Proof. apply str_of_uint_index_chars. Qed.

Lemma plain_key_spec (key : str) :
  plain_key key = true ->
  key <> []
  /\ forallb (fun c => negb (c =? 46)%N && negb (c =? 91)%N) key = true
  /\ startswith (lit "[") key = false.
Proof.
  unfold plain_key. intros H. apply andb_true_iff in H. destruct H as [H1 H2].
  destruct key as [|c key]; [discriminate|].
  repeat split; auto; [discriminate|].
  cbn [forallb] in H2. apply andb_true_iff in H2. destruct H2 as [H2 _].
  apply andb_true_iff in H2. destruct H2 as [_ H2].
  apply negb_true_iff in H2.
  change (startswith (lit "[") (c :: key)) with ((91 =? c)%N && true).
  rewrite N.eqb_sym, H2. reflexivity.
Qed.

(** Characters that are neither "." nor "[" are added to the segment being
    read, as long as that segment does not begin with "[". *)
Lemma split_path_key (key : str) :
  forall rest current parts,
    forallb (fun c => negb (c =? 46)%N && negb (c =? 91)%N) key = true ->
    startswith (lit "[") current = false ->
    split_path (key ++ rest) current parts
    = split_path rest (current ++ key) parts.
Proof.
  induction key as [|c key IH]; intros rest current parts Hkey Hcur.
  - rewrite app_nil_r. reflexivity.
  - simpl in Hkey. apply andb_true_iff in Hkey. destruct Hkey as [Hc Hkey].
    apply andb_true_iff in Hc. destruct Hc as [H46 H91].
    apply negb_true_iff in H46, H91.
    cbn [app split_path]. rewrite H91, H46, Hcur. cbn [andb].
    rewrite andb_false_r. rewrite IH; auto.
    + rewrite <- app_assoc. reflexivity.
    + destruct current as [|a current].
      * change (startswith (lit "[") ([] ++ [c])) with ((91 =? c)%N && true).
        rewrite N.eqb_sym, H91. reflexivity.
      * exact Hcur.
Qed.

(** Index characters are added to the segment whatever it is. *)
Lemma split_path_index_chars (d : str) :
  forall rest current parts,
    forallb index_char d = true ->
    split_path (d ++ rest) current parts
    = split_path rest (current ++ d) parts.
Proof.
  induction d as [|c d IH]; intros rest current parts Hd.
  - rewrite app_nil_r. reflexivity.
  - simpl in Hd. apply andb_true_iff in Hd. destruct Hd as [Hc Hd].
    unfold index_char in Hc.
    apply andb_true_iff in Hc. destruct Hc as [Hc H46].
    apply andb_true_iff in Hc. destruct Hc as [H91 H93].
    apply negb_true_iff in H46, H91, H93.
    cbn [app split_path]. rewrite H91, H93, H46. cbn [andb].
    rewrite IH by exact Hd. rewrite <- app_assoc. reflexivity.
Qed.

(** A segment ".key" closes the segment before it. *)
Lemma split_path_dot_key (key rest current : str) (parts : list str) :
  current <> [] ->
  plain_key key = true ->
  split_path (lit "." ++ key ++ rest) current parts
  = split_path rest key (parts ++ [current]).
Proof.
  intros Hcur Hkey. apply plain_key_spec in Hkey.
  destruct Hkey as (_ & Hchars & _).
  destruct current as [|a current]; [contradiction|].
  change (lit "." ++ key ++ rest) with (46%N :: (key ++ rest)).
  cbn [split_path N.eqb Pos.eqb andb eqb negb].
  rewrite split_path_key; auto.
Qed.

(** A segment "[i]" closes the segment before it, if there is one, and is
    a segment of its own. *)
Lemma split_path_index (d rest current : str) (parts : list str) :
  forallb index_char d = true ->
  startswith (lit "[") current = false ->
  split_path (lit "[" ++ d ++ lit "]" ++ rest) current parts
  = split_path rest []
      (parts ++ match current with [] => [] | _ => [current] end
             ++ [lit "[" ++ d ++ lit "]"]).
Proof.
  intros Hd Hcur.
  change (lit "[" ++ d ++ lit "]" ++ rest)
    with (91%N :: (d ++ 93%N :: rest)).
  destruct current as [|a current].
  - cbn [split_path N.eqb Pos.eqb andb eqb negb app].
    rewrite split_path_index_chars by exact Hd.
    cbn [split_path N.eqb Pos.eqb andb eqb negb app startswith lit
         list_ascii_of_string map N_of_ascii].
    reflexivity.
  - cbn [split_path N.eqb Pos.eqb andb eqb negb].
    rewrite split_path_index_chars by exact Hd.
    cbn [split_path N.eqb Pos.eqb andb eqb negb app startswith lit
         list_ascii_of_string map N_of_ascii].
    rewrite <- app_assoc. reflexivity.
Qed.

(** The path the walkers build for a run of keys from the root. *)
Lemma path_of_keys (keys : list str) :
  Forall (fun key => plain_key key = true) keys ->
  forall path,
    path <> [] ->
    fold_left path_key keys path
    = path ++ List.concat (map (fun key => lit "." ++ key) keys).
Proof.
  induction 1 as [|key keys Hkey _ IH]; intros path Hpath; simpl.
  - rewrite app_nil_r. reflexivity.
  - destruct path as [|c path]; [contradiction|].
    cbn [path_key]. rewrite IH by discriminate.
    rewrite <- !app_assoc. reflexivity.
Qed.

Lemma split_path_dotted (keys : list str) :
  Forall (fun key => plain_key key = true) keys ->
  forall current parts,
    current <> [] ->
    split_path (List.concat (map (fun key => lit "." ++ key) keys)) current parts
    = parts ++ current :: keys.
Proof.
  induction 1 as [|key keys Hkey _ IH]; intros current parts Hcur.
  - simpl. destruct current; [contradiction | reflexivity].
  - cbn [map List.concat]. rewrite <- !app_assoc.
    rewrite split_path_dot_key by assumption.
    rewrite IH by (apply plain_key_spec; exact Hkey).
    rewrite <- app_assoc. reflexivity.
Qed.

(** A path of plain keys is split into exactly these keys. *)
Lemma split_path_keys (keys : list str) :
  Forall (fun key => plain_key key = true) keys ->
  split_path (fold_left path_key keys []) [] [] = keys.
Proof.
  intros Hkeys. destruct keys as [|key keys]; [reflexivity|].
  inversion Hkeys as [|? ? Hkey Hrest]; subst.
  destruct (plain_key_spec key Hkey) as (Hne & Hchars & _).
  cbn [fold_left path_key].
  rewrite path_of_keys by assumption.
  rewrite split_path_key by auto.
  rewrite split_path_dotted by assumption. reflexivity.
Qed.

Section Paths.

Variable R : runtime.

Lemma navigate_key (key : str) (kvs : list (str * json)) :
  plain_key key = true ->
  navigate R (JObj kvs) key
  = Next (match dict_get key kvs with Some v => v | None => JObj [] end).
Proof.
  intros Hkey. apply plain_key_spec in Hkey. destruct Hkey as (_ & _ & Hb).
  unfold navigate. rewrite Hb. reflexivity.
Qed.

Lemma navigate_all_keys (keys : list str) :
  Forall (fun key => plain_key key = true) keys ->
  forall data v more,
    dict_path keys data = Some v ->
    navigate_all R data (keys ++ more) = navigate_all R v more.
Proof.
  induction 1 as [|key keys Hkey _ IH]; intros data v more; simpl.
  - intros [= ->]. reflexivity.
  - destruct data as [| | | | |kvs]; try discriminate.
    rewrite navigate_key by exact Hkey.
    destruct (dict_get key kvs) as [v'|]; [|discriminate].
    apply IH.
Qed.

(** X11. Round trip with the walkers' paths through objects: for keys
    that are not empty and contain neither "." nor "[", the path the
    walkers build for the run of keys leads [get_value_at_path] to the
    value stored under them; when the last key alone is missing the
    result is the empty object, not [None]. *)
Theorem get_value_at_key_path (data : json) (keys : list str) :
  Forall (fun key => plain_key key = true) keys ->
  (forall v,
      dict_path keys data = Some v ->
      get_value_at_path R data (fold_left path_key keys []) = Returns v)
  /\ (forall kvs key,
         plain_key key = true ->
         dict_path keys data = Some (JObj kvs) ->
         dict_get key kvs = None ->
         get_value_at_path R data (fold_left path_key (keys ++ [key]) [])
         = Returns (JObj [])).
Proof.
  intros Hkeys. split.
  - intros v Hv. unfold get_value_at_path.
    rewrite split_path_keys by exact Hkeys.
    rewrite <- (app_nil_r keys).
    rewrite (navigate_all_keys keys Hkeys data v [] Hv). reflexivity.
  - intros kvs key Hkey Hv Hmiss. unfold get_value_at_path.
    rewrite split_path_keys
      by (apply Forall_app; split; [exact Hkeys | constructor; auto]).
    rewrite (navigate_all_keys keys Hkeys data (JObj kvs) [key] Hv).
    cbn [navigate_all]. rewrite navigate_key by exact Hkey.
    rewrite Hmiss. reflexivity.
Qed.

(** X12. When a key of the path meets a value that is not an object (a
    list, a string, a number, [None]), the [.get] call raises
    [AttributeError], which the [except] clause does not list: the
    function raises instead of returning [None]. *)
Theorem get_value_at_path_attribute_error (data v : json)
        (keys : list str) (key : str) :
  Forall (fun key => plain_key key = true) keys ->
  plain_key key = true ->
  dict_path keys data = Some v ->
  (forall kvs, v <> JObj kvs) ->
  get_value_at_path R data (fold_left path_key (keys ++ [key]) [])
  = RaisesAttributeError.
Proof.
  intros Hkeys Hkey Hv Hnot. unfold get_value_at_path.
  rewrite split_path_keys
    by (apply Forall_app; split; [exact Hkeys | constructor; auto]).
  rewrite (navigate_all_keys keys Hkeys data v [key] Hv).
  cbn [navigate_all]. unfold navigate.
  destruct (plain_key_spec key Hkey) as (_ & _ & ->). cbn [andb].
  destruct v; try reflexivity. exfalso. eapply Hnot. reflexivity.
Qed.

Lemma navigate_index (result : json) (d : str) :
  navigate R result (lit "[" ++ d ++ lit "]")
  = match int_of_str R d with
    | None => Caught ValueError
    | Some index =>
        match py_getitem result index with
        | Ok v => Next v
        | Raise e => Caught e
        end
    end.
Proof.
  unfold navigate.
  rewrite startswith_app.
  rewrite (app_assoc (lit "[") d (lit "]")), endswith_app. cbn [andb].
  unfold strip_brackets.
  change (tl ((lit "[" ++ d) ++ lit "]")) with (d ++ [93%N]).
  rewrite removelast_last. reflexivity.
Qed.

(** X13. On a list root the path "[i]" the walkers build for the i-th
    element leads to that element, and to [None] when the list is
    shorter; the runtime is asked only to read the decimal digits of i
    back as i. *)
Theorem get_value_at_index_path (items : list json) (i : nat) :
  int_of_str R (str_of_nat i) = Some (Z.of_nat i) ->
  get_value_at_path R (JArr items) (path_index [] i)
  = Returns (match nth_error items i with
             | Some v => v
             | None => JNull
             end).
Proof.
  intros Hint. unfold get_value_at_path.
  change (path_index [] i) with (lit "[" ++ str_of_nat i ++ lit "]" ++ []).
  rewrite split_path_index
    by (auto using str_of_nat_index_chars).
  cbn [split_path app navigate_all].
  rewrite navigate_index, Hint. cbn [py_getitem].
  unfold list_getitem.
  replace (Z.of_nat i <? 0) with false by (symmetry; apply Z.ltb_ge; lia).
  replace (Z.of_nat i <? 0) with false by (symmetry; apply Z.ltb_ge; lia).
  rewrite Nat2Z.id. cbn [orb].
  destruct (Z.of_nat (List.length items) <=? Z.of_nat i) eqn:E.
  - apply Z.leb_le in E.
    replace (nth_error items i) with (@None json); [reflexivity|].
    symmetry. apply nth_error_None. lia.
  - destruct (nth_error items i); reflexivity.
Qed.

(** X14. A key after an index is not found: in the path "[i].key" that
    the walkers build for a key of the i-th element, the dot opens the
    next segment instead of closing one, so the lookup asks the element
    for the key ".key" and returns the empty object when only "key" is
    there. *)
Theorem get_value_at_index_key_path (items : list json) (i : nat)
        (kvs : list (str * json)) (key : str) :
  int_of_str R (str_of_nat i) = Some (Z.of_nat i) ->
  nth_error items i = Some (JObj kvs) ->
  plain_key key = true ->
  get_value_at_path R (JArr items) (path_key (path_index [] i) key)
  = Returns (match dict_get (lit "." ++ key) kvs with
             | Some v => v
             | None => JObj []
             end).
Proof.
  intros Hint Hnth Hkey. unfold get_value_at_path.
  destruct (plain_key_spec key Hkey) as (_ & Hchars & _).
  replace (path_key (path_index [] i) key)
    with (lit "[" ++ str_of_nat i ++ lit "]" ++ lit "." ++ key)
    by (unfold path_index; simpl; rewrite <- app_assoc; reflexivity).
  rewrite split_path_index by (auto using str_of_nat_index_chars).
  change (lit "." ++ key) with (46%N :: key).
  cbn [split_path N.eqb Pos.eqb andb eqb negb app].
  pose proof (split_path_key key [] [46%N]
                [lit "[" ++ str_of_nat i ++ lit "]"] Hchars eq_refl) as Hk.
  rewrite app_nil_r in Hk. rewrite Hk. clear Hk.
  cbn [split_path app navigate_all].
  rewrite navigate_index, Hint. cbn [py_getitem].
  assert (Hget : list_getitem items (Z.of_nat i) = Ok (JObj kvs)).
  { unfold list_getitem.
    replace (Z.of_nat i <? 0) with false by (symmetry; apply Z.ltb_ge; lia).
    replace (Z.of_nat i <? 0) with false by (symmetry; apply Z.ltb_ge; lia).
    assert (Hlt : (i < List.length items)%nat)
      by (apply nth_error_Some; congruence).
    replace (Z.of_nat (List.length items) <=? Z.of_nat i) with false
      by (symmetry; apply Z.leb_gt; lia).
    rewrite Nat2Z.id, Hnth. reflexivity. }
  rewrite Hget. unfold navigate.
  change (startswith (lit "[") ([46%N] ++ key)) with false. cbn [andb].
  reflexivity.
Qed.

End Paths.

(* ================================================================== *)
(** ** Where the texts come from *)
(* ================================================================== *)

Lemma string_elements_In (l : list json) (s : str) :
  In s (string_elements l) <-> In (JStr s) l.
Proof.
  induction l as [|x l IH]; simpl; [tauto|].
  destruct x as [| | |s0| |]; simpl; rewrite IH;
    try (split; [auto | intros [H|H]; [discriminate H | exact H]]).
  split; intros [H|H]; auto; left; congruence.
Qed.

Section Provenance.

Variable R : runtime.


Lemma visit_content_drawn (items : list json) (obj : list (str * json))
      (path : str) (texts : list str) (acc acc' : list content_msg) :
  incl (string_elements items) texts ->
  incl (content_strings (JObj obj)) texts ->
  drawn_from texts acc ->
  visit_content R (JArr items) obj path acc = Ok acc' ->
  drawn_from texts acc'.
Proof.
  intros Hel Hobj Hacc. unfold visit_content. simpl in Hobj.
  destruct (dict_get (lit "content") obj) as [[| | |content| |]|];
    try (intros [= <-]; assumption).
  assert (Hc : In content texts) by (apply Hobj; left; reflexivity).
  assert (Hlit : (if is_real_conversation_message R content
                  then Ok (acc ++ [{| cm_content := content; cm_path := path;
                                      cm_ref := None |}])
                  else Ok acc) = Ok acc' -> drawn_from texts acc').
  { destruct (is_real_conversation_message R content);
      intros [= <-]; auto.
    apply Forall_app; split; auto. }
  unfold py_int. destruct (int_of_str R content) as [c|]; simpl; auto.
  destruct (c <? _); simpl; [|intros [= <-]; assumption].
  destruct (list_getitem_cases items c) as [[x [-> Hx]]| ->]; simpl; auto.
  destruct x as [| | |a| |]; simpl; try (intros [= <-]; assumption).
  destruct (is_real_conversation_message R a); simpl;
    intros [= <-]; auto.
  apply Forall_app; split; auto. constructor; [|constructor]. simpl.
  apply Hel, string_elements_In, Hx.
Qed.

Lemma find_content_references_drawn (items : list json)
      (texts : list str) (obj : json) :
  incl (string_elements items) texts ->
  incl (content_strings obj) texts ->
  forall path acc acc',
    drawn_from texts acc ->
    find_content_references R (JArr items) obj path acc = Ok acc' ->
    drawn_from texts acc'.
Proof.
  intros Hel.
  induction obj as [| | |s|l IH|kvs IH] using json_tree_ind;
    intros Hobj path acc acc' Hacc; simpl;
    try (intros [= <-]; assumption).
  - apply for_each_keeps; auto.
    rewrite Forall_forall in *. intros x Hx i a a'. apply IH; auto.
    intros t Ht. apply Hobj. simpl. apply in_flat_map. eauto.
  - destruct (visit_content R (JArr items) kvs path acc) as [acc1|e] eqn:E;
      simpl; [|discriminate].
    apply for_each_keeps; [|eapply visit_content_drawn; eauto].
    rewrite Forall_forall in *. intros [key value] Hx i a a'.
    apply (IH (key, value)); auto.
    intros t Ht. apply Hobj. simpl. apply in_or_app. right.
    apply in_flat_map. exists (key, value). auto.
Qed.

Lemma unique_messages_incl (l : list content_msg) :
  forall seen, incl (unique_messages seen l) l.
Proof.
  induction l as [|m l IH]; intros seen; simpl; [apply incl_refl|].
  destruct (mem (cm_content m) seen).
  - apply incl_tl, IH.
  - apply incl_cons; [left; reflexivity | apply incl_tl, IH].
Qed.

Lemma marker_scan_drawn (n : nat) :
  forall data seen msgs,
    (List.length data <= n)%nat ->
    Forall (fun m => In (msg_text m) (map (py_str R) data)
                     \/ In m msgs)
           (marker_scan R data seen msgs).
Proof.
  induction n as [|n IH]; intros data seen msgs Hn.
  - destruct data; [|simpl in Hn; lia]. simpl.
    apply Forall_forall. auto.
  - destruct data as [|item rest];
      [simpl; apply Forall_forall; auto|]. simpl in Hn.
    assert (Hrest : forall seen' msgs',
               Forall (fun m => In m msgs' ->
                                In (msg_text m)
                                   (map (py_str R) (item :: rest))
                                \/ In m msgs) msgs' ->
               Forall (fun m => In (msg_text m)
                                   (map (py_str R) (item :: rest))
                                \/ In m msgs)
                      (marker_scan R rest seen' msgs')).
    { intros seen' msgs' Hm.
      eapply Forall_impl; [|apply (IH rest seen' msgs'); lia].
      simpl. intros m [H|H]; [left; right; exact H|].
      rewrite Forall_forall in Hm. destruct (Hm m H H); auto. }
    assert (Hsame : Forall (fun m => In m msgs ->
                                     In (msg_text m)
                                        (map (py_str R) (item :: rest))
                                     \/ In m msgs) msgs)
      by (apply Forall_forall; auto).
    assert (Hadd : forall who t,
               In t (map (py_str R) (item :: rest)) ->
               Forall (fun m => In m (msgs ++ [{| msg_sender := who;
                                                  msg_text := t |}]) ->
                                In (msg_text m)
                                   (map (py_str R) (item :: rest))
                                \/ In m msgs)
                      (msgs ++ [{| msg_sender := who; msg_text := t |}])).
    { intros who t Ht. apply Forall_forall. intros m Hm _.
      apply in_app_or in Hm. destruct Hm as [Hm|[<-|[]]]; auto. }
    assert (Hplain :
              forall s, py_str R item = s ->
                Forall (fun m => In (msg_text m)
                                    (map (py_str R) (item :: rest))
                                 \/ In m msgs)
                  (if is_real_conversation_message R s && negb (mem s seen)
                   then marker_scan R rest (s :: seen)
                          (msgs ++ [{| msg_sender :=
                                         if len s <? 100 then user else bot;
                                       msg_text := s |}])
                   else marker_scan R rest seen msgs)).
    { intros s Hs. destruct (_ && _); apply Hrest; auto.
      apply Hadd. left; exact Hs. }
    destruct item as [| | |s| |]; simpl; try (apply Hrest; exact Hsame).
    assert (Hpaired :
              forall who,
                Forall (fun m => In (msg_text m)
                                    (map (py_str R) (JStr s :: rest))
                                 \/ In m msgs)
                  (match rest with
                   | next :: rest' =>
                       if is_real_conversation_message R (py_str R next)
                          && negb (mem (py_str R next) seen)
                       then marker_scan R rest' (py_str R next :: seen)
                              (msgs ++ [{| msg_sender := who;
                                           msg_text := py_str R next |}])
                       else marker_scan R rest' seen msgs
                   | [] =>
                       if is_real_conversation_message R s
                          && negb (mem s seen)
                       then marker_scan R rest (s :: seen)
                              (msgs ++ [{| msg_sender :=
                                             if len s <? 100 then user
                                             else bot;
                                           msg_text := s |}])
                       else marker_scan R rest seen msgs
                   end)).
    { intros who. destruct rest as [|next rest']; [apply Hplain; reflexivity|].
      simpl in Hn.
      assert (Hskip : forall seen' msgs',
                 Forall (fun m => In m msgs' ->
                                  In (msg_text m)
                                     (map (py_str R) (JStr s :: next :: rest'))
                                  \/ In m msgs) msgs' ->
                 Forall (fun m => In (msg_text m)
                                     (map (py_str R)
                                          (JStr s :: next :: rest'))
                                  \/ In m msgs)
                        (marker_scan R rest' seen' msgs')).
      { intros seen' msgs' Hm.
        eapply Forall_impl; [|apply (IH rest' seen' msgs'); lia].
        simpl. intros m [H|H]; [left; right; right; exact H|].
        rewrite Forall_forall in Hm. destruct (Hm m H H); auto. }
      destruct (_ && _); apply Hskip; auto.
      apply Hadd. right; left; reflexivity. }
    destruct (eqb s HumanMessage); [apply Hpaired|].
    destruct (eqb s AIMessage); [apply Hpaired|].
    apply Hplain. reflexivity.
Qed.

(** X15. No text is made up: every message text of the conversation
    extracted from a root sequence is the [str] of an element of the root
    (the element itself when it is a string) or the string stored under a
    "content" key somewhere in the log. *)
Theorem conversation_texts_come_from_log (items : list json)
        (msgs : list message) :
  extract_conversation_from_data R (JArr items) = Ok msgs ->
  Forall (fun m =>
            In (msg_text m) (map (py_str R) items)
            \/ In (msg_text m) (content_strings (JArr items)))
         msgs.
Proof.
  unfold extract_conversation_from_data.
  destruct (negb (existsb is_marker items)); [intros [= <-]; constructor|].
  destruct (find_content_references R (JArr items) (JArr items) [] [])
    as [cms|e] eqn:E; cbn [bind]; [|discriminate].
  assert (Hcms : drawn_from (string_elements items
                             ++ content_strings (JArr items)) cms).
  { eapply find_content_references_drawn; [| | |exact E].
    - apply incl_appl, incl_refl.
    - apply incl_appr, incl_refl.
    - constructor. }
  set (f := fun msg_info => _).
  destruct (map f (unique_messages [] cms)) as [|m ms] eqn:Em.
  - intros [= <-].
    eapply Forall_impl;
      [|apply (marker_scan_drawn (List.length items) items [] []);
        apply Nat.le_refl].
    simpl. intros m [H|[]]. auto.
  - intros [= <-]. rewrite <- Em. apply Forall_map.
    apply Forall_forall. intros c Hc. unfold f. simpl.
    apply unique_messages_incl in Hc.
    unfold drawn_from in Hcms. rewrite Forall_forall in Hcms.
    apply Hcms in Hc. apply in_app_or in Hc. destruct Hc as [Hc|Hc]; auto.
    left. apply string_elements_In in Hc. apply in_map_iff.
    exists (JStr (cm_content c)). auto.
Qed.

(** *** Every test of the filter *)



End Provenance.

(* ================================================================== *)
(** ** The listing *)
(* ================================================================== *)

Lemma total_messages_from (l : list chat_summary) :
  forall z,
    fold_left (fun total chat => total + cs_message_count chat) l z
    = z + total_messages l.
Proof.
  unfold total_messages.
  induction l as [|x l IH]; intros z; simpl; [lia|].
  rewrite IH, (IH (cs_message_count x)). lia.
Qed.

Lemma total_messages_nil : total_messages [] = 0.
Proof. reflexivity. Qed.

Lemma total_messages_cons (x : chat_summary) (l : list chat_summary) :
  total_messages (x :: l) = cs_message_count x + total_messages l.
Proof.
  unfold total_messages at 1. simpl. rewrite total_messages_from. lia.
Qed.

Lemma total_messages_app (l1 l2 : list chat_summary) :
  total_messages (l1 ++ l2) = total_messages l1 + total_messages l2.
Proof.
  induction l1 as [|x l1 IH]; simpl; [reflexivity|].
  rewrite !total_messages_cons, IH. lia.
Qed.

Lemma largest_In (rest : list chat_summary) :
  forall first, In (largest first rest) (first :: rest).
Proof.
  unfold largest.
  induction rest as [|x rest IH]; intros first; simpl; [auto|].
  destruct (cs_data_size x >? cs_data_size first).
  - right. apply IH.
  - destruct (IH first) as [H|H]; [left; exact H | right; right; exact H].
Qed.

Lemma file_under_total (key : str) (x : chat_summary)
      (d : list (str * list chat_summary)) :
  total_messages (flat_map snd (file_under key x d))
  = total_messages (flat_map snd d) + cs_message_count x.
Proof.
  induction d as [|[k l] d IH]; simpl.
  - rewrite total_messages_cons, !total_messages_nil. lia.
  - destruct (eqb k key); simpl.
    + rewrite !total_messages_app, total_messages_cons, total_messages_nil.
      lia.
    + rewrite !total_messages_app, IH. lia.
Qed.

Lemma file_under_Forall (P : chat_summary -> Prop) (key : str)
      (x : chat_summary) (d : list (str * list chat_summary)) :
  P x ->
  Forall (fun g => Forall P (snd g)) d ->
  Forall (fun g => Forall P (snd g)) (file_under key x d).
Proof.
  intros Hx. induction 1 as [|[k l] d Hl Hd IH]; simpl.
  - repeat constructor; auto.
  - simpl in Hl. destruct (eqb k key); constructor; simpl; auto.
    apply Forall_app; split; auto.
Qed.

Section ListingProperties.

Variable R : runtime.
Variable C : calendar.

Lemma summarize_listable (target_date : option date) (execution_id : str)
      (data : json) (tick tick' : nat) (key : str) (s : chat_summary) :
  summarize R C target_date execution_id data tick = (Some (key, s), tick') ->
  listable R target_date s.
Proof.
  unfold summarize.
  destruct (extract_chat_messages R data execution_id tick)
    as [[chat_data tk]|e] eqn:Er; [|discriminate].
  destruct (record_invariants_holds R _ _ _ _ _ Er) as (_ & Hflag & _ & Hui & _).
  apply extract_user_info_well_formed_holds in Hui. destruct Hui as [Hphone _].
  destruct (extract_timestamps_from_data R data tk) as [[ts tk1]|e];
    [|discriminate].
  set (dated := match ts with
                | [] => (date_of C (clock R tk1), S tk1)
                | t :: _ => (date_of C t, tk1)
                end).
  destruct dated as [chat_date tk2].
  destruct (match target_date with
            | Some d => negb (chat_date =? d)
            | None => false
            end) eqn:Ef; [discriminate|].
  destruct (phone_number (chat_user_info chat_data)) as [[|c p]|] eqn:Ep;
    try discriminate.
  destruct (no_conversation chat_data) eqn:En; simpl; [discriminate|].
  intros [= _ <- _]. unfold listable. simpl.
  destruct (Hphone (c :: p) eq_refl) as [Hd Hl].
  repeat split; auto; try lia.
  - destruct (messages chat_data) as [|m ms]; simpl; [|lia].
    destruct Hflag as [_ Hflag]. discriminate (Hflag eq_refl).
  - intros d ->. apply negb_false_iff, Z.eqb_eq in Ef. exact Ef.
Qed.

Lemma collect_Forall (target_date : option date)
      (executions : list (str * json)) :
  forall tick d,
    Forall (fun g => Forall (listable R target_date) (snd g)) d ->
    Forall (fun g => Forall (listable R target_date) (snd g))
           (fst (collect R C target_date executions tick d)).
Proof.
  induction executions as [|[execution_id data] rest IH]; intros tick d Hd;
    simpl; auto.
  destruct (summarize R C target_date execution_id data tick)
    as [[[key s]|] tk] eqn:E; apply IH; auto.
  apply file_under_Forall; auto.
  eapply summarize_listable; eauto.
Qed.

Lemma collect_total (target_date : option date)
      (executions : list (str * json)) :
  forall tick d,
    total_messages
      (flat_map snd (fst (collect R C target_date executions tick d)))
    = total_messages (flat_map snd d)
      + total_messages (filed R C target_date executions tick).
Proof.
  induction executions as [|[execution_id data] rest IH]; intros tick d;
    simpl.
  - rewrite total_messages_nil. lia.
  - destruct (summarize R C target_date execution_id data tick)
      as [[[key s]|] tk] eqn:E; rewrite IH; auto.
    rewrite file_under_total, total_messages_cons. lia.
Qed.

Lemma best_chat_listable (target_date : option date)
      (first : chat_summary) (others : list chat_summary) :
  Forall (listable R target_date) (first :: others) ->
  listable R target_date (best_chat first others).
Proof.
  intros Hall.
  assert (Hbest : listable R target_date (largest first others)).
  { rewrite Forall_forall in Hall. apply Hall, largest_In. }
  destruct Hbest as (H1 & H2 & H3 & _ & H5).
  unfold listable, best_chat. simpl. repeat split; auto; try lia.
  inversion Hall as [|? ? Hf Ho]; subst.
  rewrite total_messages_cons.
  assert (0 <= total_messages others).
  { clear - Ho. induction Ho as [|x l Hx _ IH].
    - rewrite total_messages_nil; lia.
    - rewrite total_messages_cons. destruct Hx as (_ & _ & _ & Hx & _). lia. }
  destruct Hf as (_ & _ & _ & Hf & _). lia.
Qed.

Lemma select_Forall (target_date : option date)
      (groups : list (str * list chat_summary)) :
  Forall (fun g => Forall (listable R target_date) (snd g)) groups ->
  forall all_chats chats_by_date,
    Forall (listable R target_date) all_chats ->
    Forall (listable R target_date)
           (fst (select C groups all_chats chats_by_date)).
Proof.
  induction 1 as [|[k l] groups Hl _ IH]; intros all_chats cbd Hall;
    simpl; auto.
  destruct l as [|first others]; [apply IH; exact Hall|].
  apply IH. apply Forall_app. split; auto.
  constructor; [|constructor]. apply best_chat_listable. exact Hl.
Qed.

Lemma select_total (groups : list (str * list chat_summary)) :
  forall all_chats chats_by_date,
    total_messages (fst (select C groups all_chats chats_by_date))
    = total_messages all_chats + total_messages (flat_map snd groups).
Proof.
  induction groups as [|[k l] groups IH]; intros all_chats cbd; simpl.
  - rewrite total_messages_nil. lia.
  - destruct l as [|first others]; rewrite IH; simpl; [reflexivity|].
    rewrite !total_messages_app, !total_messages_cons, total_messages_nil.
    unfold best_chat at 1. cbn [cs_message_count].
    rewrite total_messages_cons, total_messages_app. lia.
Qed.

(** With every chat dated [d], [chats_by_date] has the one key of [d] and
    under it [all_chats]. *)
Lemma select_one_date (d : date)
      (groups : list (str * list chat_summary)) :
  Forall (fun g => Forall (fun s => cs_date s = d) (snd g)) groups ->
  forall all_chats chats_by_date,
    (all_chats = [] /\ chats_by_date = []
     \/ exists g, chats_by_date = [(strftime C (lit "%Y-%m-%d") d, g)]
                  /\ dg_chats g = all_chats) ->
    chats_of (strftime C (lit "%Y-%m-%d") d)
             (snd (select C groups all_chats chats_by_date))
    = fst (select C groups all_chats chats_by_date).
Proof.
  set (K := strftime C (lit "%Y-%m-%d") d).
  assert (HK : eqb K K = true) by (apply eqb_eq; reflexivity).
  induction 1 as [|[k l] groups Hl _ IH]; intros all_chats cbd Hinv; simpl.
  - destruct Hinv as [[-> ->]|[g [-> <-]]]; simpl; [reflexivity|].
    rewrite HK. reflexivity.
  - destruct l as [|first others]; [apply IH; exact Hinv|].
    apply IH. right.
    assert (Hd : cs_date (largest first others) = d).
    { simpl in Hl. rewrite Forall_forall in Hl. apply Hl, largest_In. }
    rewrite Hd. fold K.
    destruct Hinv as [[-> ->]|[g [-> <-]]]; simpl.
    + eexists; split; reflexivity.
    + rewrite HK. eexists; split; reflexivity.
Qed.

Lemma listed_chats_all (target_date : option date)
      (executions : list (str * json)) (tick : nat) :
  listed_chats R C target_date executions tick
  = fst (select C (fst (collect R C target_date executions tick [])) [] []).
Proof.
  unfold listed_chats.
  pose proof (collect_Forall target_date executions tick []
                (Forall_nil _)) as Hgroups.
  destruct (collect R C target_date executions tick []) as [groups tk].
  simpl in *.
  destruct target_date as [d|].
  - pose proof (select_one_date d groups) as Hsel.
    destruct (select C groups [] []) as [all_chats cbd] eqn:Es.
    specialize (Hsel ltac:(eapply Forall_impl; [|exact Hgroups];
                           intros g Hg; eapply Forall_impl; [|exact Hg];
                           intros s Hs; apply Hs; reflexivity)
                     [] [] ltac:(left; split; reflexivity)).
    rewrite Es in Hsel. exact Hsel.
  - destruct (select C groups [] []); reflexivity.
Qed.

(** X17. Every chat of the listing has a conversation, a phone number of
    7 to 15 digits and at least one message, and lies on the day asked for
    when a date filter is given. *)
Theorem listed_chats_listable (target_date : option date)
        (executions : list (str * json)) (tick : nat) :
  Forall (fun chat =>
            cs_has_conversation chat = true
            /\ isdigit R (cs_phone_number chat) = true
            /\ 7 <= len (cs_phone_number chat) <= 15
            /\ 1 <= cs_message_count chat
            /\ forall d, target_date = Some d -> cs_date chat = d)
         (listed_chats R C target_date executions tick).
Proof.
  rewrite listed_chats_all.
  apply (select_Forall target_date); [|constructor].
  apply collect_Forall. constructor.
Qed.

(** X18. Grouping loses no message: the message counts of the listed
    chats add up to the message counts of all the summaries the first loop
    filed, with or without a date filter. *)
Theorem listed_chats_total (target_date : option date)
        (executions : list (str * json)) (tick : nat) :
  total_messages (listed_chats R C target_date executions tick)
  = total_messages (filed R C target_date executions tick).
Proof.
  rewrite listed_chats_all, select_total, collect_total.
  cbn [flat_map]. rewrite !total_messages_nil. lia.
Qed.

Lemma collect_app (target_date : option date)
      (before after : list (str * json)) :
  forall tick d,
    collect R C target_date (before ++ after) tick d
    = collect R C target_date after
        (snd (collect R C target_date before tick d))
        (fst (collect R C target_date before tick d)).
Proof.
  induction before as [|[execution_id data] before IH]; intros tick d;
    simpl; [reflexivity|].
  destruct (summarize R C target_date execution_id data tick)
    as [[[key s]|] tk]; apply IH.
Qed.

(** X19. A row whose log makes [extract_user_info] raise (as the object
    root of C1 does) is skipped by the listing: the chats listed are those
    listed without the row. *)
Theorem raising_row_is_skipped (target_date : option date)
        (before after : list (str * json)) (execution_id : str)
        (data : json) (e : exn) (tick : nat) :
  extract_user_info R data = Raise e ->
  listed_chats R C target_date (before ++ (execution_id, data) :: after) tick
  = listed_chats R C target_date (before ++ after) tick.
Proof.
  intros Hraise.
  assert (Hrow : forall tk,
             summarize R C target_date execution_id data tk = (None, tk)).
  { intros tk. unfold summarize, extract_chat_messages.
    rewrite Hraise. reflexivity. }
  unfold listed_chats. rewrite !collect_app. simpl. rewrite Hrow.
  reflexivity.
Qed.

End ListingProperties.

(* ================================================================== *)
(** ** Worked examples of the further properties *)
(* ================================================================== *)

Lemma extract_user_info_well_formed_witness :
  extract_user_info rt user_log
  = Ok {| phone_number := Some (lit "51987654321");
          user_name := Some (lit "Maria Lopez") |}
  /\ isdigit rt (lit "51987654321") = true
  /\ 7 <= len (lit "51987654321") <= 15
  /\ len (lit "Maria Lopez") > 3
  /\ isdigit rt (lit "Maria Lopez") = false.
Proof.
  assert (H : extract_user_info rt user_log
              = Ok {| phone_number := Some (lit "51987654321");
                      user_name := Some (lit "Maria Lopez") |})
    by reflexivity.
  destruct (extract_user_info_well_formed rt user_log _ H) as [Hp Hn].
  destruct (Hp _ eq_refl) as [Hp1 Hp2].
  destruct (Hn _ eq_refl) as [Hn1 Hn2].
  repeat split; assumption || apply Hp2.
Defined.


(** [recovered_log] under [CPython.rt_utc]: three instants are recovered,
    out of order, and returned in ascending order without a reading of the
    clock. *)
Lemma timestamps_nonempty_sorted_witness :
  extract_timestamps_from_data CPython.rt_utc recovered_log 0
  = Ok (recovered_sorted, 0%nat)
  /\ search_for_timestamps CPython.rt_utc recovered_log [] []
     = Ok recovered_found
  /\ recovered_found <> []
  /\ recovered_sorted <> []
  /\ StronglySorted Z.le recovered_sorted
  /\ Permutation recovered_found recovered_sorted
  /\ 0%nat = 0%nat.
Proof.
  assert (H : extract_timestamps_from_data CPython.rt_utc recovered_log 0
              = Ok (recovered_sorted, 0%nat)) by reflexivity.
  assert (Hs : search_for_timestamps CPython.rt_utc recovered_log [] []
               = Ok recovered_found) by reflexivity.
  assert (Hf : recovered_found <> []) by discriminate.
  destruct (timestamps_nonempty_sorted CPython.rt_utc recovered_log 0 0
              recovered_sorted H)
    as (Hne & Hsorted & found & Hfound & Hperm).
  rewrite Hs in Hfound. injection Hfound as <-.
  destruct (Hperm Hf) as [Hp Htick].
  repeat split; assumption.
Defined.

Lemma record_invariants_witness :
  extract_chat_messages rt reference_log chat_id 0 = Ok (hola_chat, 2%nat)
  /\ id hola_chat = chat_id
  /\ (no_conversation hola_chat = true <-> messages hola_chat = [])
  /\ extract_user_info rt reference_log = Ok (chat_user_info hola_chat).
Proof.
  assert (H : extract_chat_messages rt reference_log chat_id 0
              = Ok (hola_chat, 2%nat)) by reflexivity.
  destruct (record_invariants rt reference_log chat_id 0 2 hola_chat H)
    as (H1 & H2 & _ & H4 & _).
  repeat split; try assumption; apply H2.
Defined.

(** [recovered_log] under [CPython.rt_utc]: two messages and three
    instants; the record keeps the extraction order and gives the two
    messages the two earliest instants. *)
Lemma enough_timestamps_keep_order_witness :
  extract_chat_messages CPython.rt_utc recovered_log chat_id 0
  = Ok (recovered_chat, 1%nat)
  /\ extract_conversation_from_data CPython.rt_utc recovered_log
     = Ok recovered_conversation
  /\ extract_timestamps_from_data CPython.rt_utc recovered_log 0
     = Ok (recovered_sorted, 0%nat)
  /\ (List.length recovered_conversation <= List.length recovered_sorted)%nat
  /\ map untimed (messages recovered_chat) = recovered_conversation
  /\ map timestamp (messages recovered_chat)
     = firstn (List.length recovered_conversation) recovered_sorted
  /\ map text (messages recovered_chat) = [hola; buenos_dias]
  /\ map timestamp (messages recovered_chat)
     = [1900000000000000; 1950000000000000].
Proof.
  split; [reflexivity|]. split; [reflexivity|]. split; [reflexivity|].
  split; [simpl; lia|].
  destruct (enough_timestamps_keep_order CPython.rt_utc recovered_log
              chat_id 0 1 0 recovered_chat recovered_conversation
              recovered_sorted eq_refl eq_refl eq_refl
              ltac:(simpl; lia)) as [Hu Ht].
  split; [exact Hu|]. split; [exact Ht|]. split; reflexivity.
Defined.

Lemma preview_of_extracted_record_witness :
  extract_chat_messages rt reference_log chat_id 0 = Ok (hola_chat, 2%nat)
  /\ get_chat_preview hola_chat = [128100%N] ++ lit " hola"
  /\ get_chat_preview hola_chat <> preview_no_messages.
Proof.
  split; [reflexivity|]. split; [reflexivity|].
  apply (preview_of_extracted_record rt reference_log chat_id 0 2 hola_chat).
  reflexivity.
Defined.

(** [found_log]: the keys "text" and "Message" are reported, "id" is
    not. *)
Lemma found_messages_shape_witness :
  In (lit "[1]", [(lit "Message", JStr buenos_dias)])
     (objects_of found_log [])
  /\ In (lit "Message", JStr buenos_dias)
        [(lit "Message", JStr buenos_dias)]
  /\ (contains (lit "message") (lower rt (lit "Message"))
      || contains (lit "text") (lower rt (lit "Message"))) = true
  /\ In {| fm_path := path_key (lit "[1]") (lit "Message");
           fm_value := firstn 100 (py_str rt (JStr buenos_dias))
                       ++ lit "..." |}
        (find_messages_in_data rt found_log [])
  /\ find_messages_in_data rt found_log []
     = [{| fm_path := lit "[0].text"; fm_value := lit "hola..." |};
        {| fm_path := lit "[1].Message";
           fm_value := lit "buenos dias..." |}].
Proof.
  assert (Hobj : In (lit "[1]", [(lit "Message", JStr buenos_dias)])
                    (objects_of found_log []))
    by (right; left; reflexivity).
  assert (Hkv : In (lit "Message", JStr buenos_dias)
                   [(lit "Message", JStr buenos_dias)])
    by (left; reflexivity).
  split; [exact Hobj|]. split; [exact Hkv|]. split; [reflexivity|].
  split; [|reflexivity].
  exact (proj2 (found_messages_shape rt found_log [])
               (lit "[1]") [(lit "Message", JStr buenos_dias)]
               (lit "Message") (JStr buenos_dias) Hobj Hkv eq_refl).
Defined.

Lemma describe_structure_skeleton_witness :
  describe_structure object_log = JObj [(lit "content", JStr (lit "str"))]
  /\ exists kvs',
      describe_structure object_log = JObj kvs'
      /\ map fst kvs' = [lit "content"].
Proof.
  split; [reflexivity|].
  apply (proj2 (describe_structure_skeleton object_log)
               [(lit "content", JStr (lit "hola amigo"))]).
  reflexivity.
Defined.

Lemma get_value_at_key_path_witness :
  Forall (fun key => plain_key key = true) [lit "a"; lit "b"]
  /\ dict_path [lit "a"; lit "b"] nested_object = Some (JStr (lit "x"))
  /\ fold_left path_key [lit "a"; lit "b"] [] = lit "a.b"
  /\ get_value_at_path rt nested_object (lit "a.b") = Returns (JStr (lit "x")).
Proof.
  assert (Hk : Forall (fun key => plain_key key = true) [lit "a"; lit "b"])
    by (repeat constructor).
  split; [exact Hk|]. split; [reflexivity|]. split; [reflexivity|].
  apply (proj1 (get_value_at_key_path rt nested_object _ Hk)). reflexivity.
Defined.

Lemma get_value_at_path_attribute_error_witness :
  Forall (fun key => plain_key key = true) [lit "a"]
  /\ plain_key (lit "b") = true
  /\ dict_path [lit "a"] list_under_key = Some (JArr [JNum (NInt 1)])
  /\ get_value_at_path rt list_under_key (lit "a.b") = RaisesAttributeError.
Proof.
  assert (Hk : Forall (fun key => plain_key key = true) [lit "a"])
    by (repeat constructor).
  split; [exact Hk|]. split; [reflexivity|]. split; [reflexivity|].
  apply (get_value_at_path_attribute_error rt list_under_key
           (JArr [JNum (NInt 1)]) [lit "a"] (lit "b") Hk);
    [reflexivity | reflexivity | discriminate].
Defined.

Lemma get_value_at_index_path_witness :
  int_of_str rt (str_of_nat 1) = Some 1
  /\ get_value_at_path rt reference_log (lit "[1]") = Returns (JStr hola).
Proof.
  split; [reflexivity|].
  apply (get_value_at_index_path rt
           [JStr HumanMessage; JStr hola;
            JObj [(lit "content", JStr (lit "1"))]] 1).
  reflexivity.
Defined.

Lemma get_value_at_index_key_path_witness :
  int_of_str rt (str_of_nat 0) = Some 0
  /\ nth_error messages_row 0
     = Some (JObj [(lit "messages", JStr (lit "x"))])
  /\ plain_key (lit "messages") = true
  /\ path_key (path_index [] 0) (lit "messages") = lit "[0].messages"
  /\ get_value_at_path rt (JArr messages_row) (lit "[0].messages")
     = Returns (JObj []).
Proof.
  split; [reflexivity|]. split; [reflexivity|]. split; [reflexivity|].
  split; [reflexivity|].
  apply (get_value_at_index_key_path rt messages_row 0
           [(lit "messages", JStr (lit "x"))] (lit "messages"));
    reflexivity.
Defined.

Lemma conversation_texts_come_from_log_witness :
  extract_conversation_from_data rt reference_log
  = Ok [{| msg_sender := user; msg_text := hola |}]
  /\ Forall (fun m =>
               In (msg_text m)
                  (map (py_str rt)
                       [JStr HumanMessage; JStr hola;
                        JObj [(lit "content", JStr (lit "1"))]])
               \/ In (msg_text m) (content_strings reference_log))
            [{| msg_sender := user; msg_text := hola |}].
Proof.
  split; [reflexivity|].
  apply (conversation_texts_come_from_log rt
           [JStr HumanMessage; JStr hola;
            JObj [(lit "content", JStr (lit "1"))]]).
  reflexivity.
Defined.


Lemma raising_row_is_skipped_witness :
  extract_user_info rt name_object_log = Raise KeyError
  /\ listed_chats rt CPython.cal None
       ([] ++ (lit "1", name_object_log) :: [(lit "2", phone_log)]) 0
     = listed_chats rt CPython.cal None ([] ++ [(lit "2", phone_log)]) 0.
Proof.
  split; [reflexivity|].
  apply (raising_row_is_skipped rt CPython.cal None []
           [(lit "2", phone_log)] (lit "1") name_object_log KeyError 0).
  reflexivity.
Defined.

Lemma listed_chats_listable_witness :
  List.length
    (listed_chats rt CPython.cal (Some 19675)
       [(lit "2", phone_log); (lit "3", phone_log)] 0) = 1%nat
  /\ Forall (fun chat =>
               cs_has_conversation chat = true
               /\ isdigit rt (cs_phone_number chat) = true
               /\ 7 <= len (cs_phone_number chat) <= 15
               /\ 1 <= cs_message_count chat
               /\ forall d, Some 19675 = Some d -> cs_date chat = d)
            (listed_chats rt CPython.cal (Some 19675)
               [(lit "2", phone_log); (lit "3", phone_log)] 0).
Proof.
  split; [reflexivity|].
  apply (listed_chats_listable rt CPython.cal (Some 19675)
           [(lit "2", phone_log); (lit "3", phone_log)] 0).
Defined.
